(** * Aura interview assistant: the real-time bias pipeline and the sentiment scorer

    A shallow embedding of [backend/app/routers/realtime_bias.py] and of
    [analyze_sentiment] in [backend/app/routers/ai.py].

    Conventions of the embedding:
    - a Python [str] is a [string]; a character is a code point in
      U+0000..U+00FF, on which [str.lower] is the character-wise map
      [lower_char] and [str.isspace] is [isspace];
    - a Python [int] is a [Z], a Python [float] is a rational [Q]
      (rounding is not modelled, literals are written as in the source);
    - a dict with fixed keys is a record, the ordered dict
      [BIAS_CATEGORIES] is an association list;
    - module-level globals, the wall clock and raised exceptions are
      threaded through the monad [M];
    - what [print] writes is not kept.  [_load_bias_pipeline] and
      [_train_bias_classifier] are given for a standard output that
      accepts their messages, and once more with the [print] calls that
      can raise on another one ([_load_bias_pipeline_printing]). *)

From Stdlib Require Import String Ascii List ZArith QArith Qminmax Qabs.
From Stdlib Require Import Lia Lqa Bool DecimalString.
Import ListNotations.

Local Open Scope string_scope.
Local Open Scope list_scope.

(* ================================================================== *)
(** ** Python string primitives *)
(* ================================================================== *)

Module PyStr.

(** [c.isspace()] for a code point below 256: TAB..CR, FS..US, SPACE,
    NEL (U+0085) and NBSP (U+00A0). *)
Definition isspace (c : ascii) : bool :=
  let n := N_of_ascii c in
  (((9 <=? n) && (n <=? 13)) || ((28 <=? n) && (n <=? 32))
   || (n =? 133) || (n =? 160))%N.

(** [c.lower()] for a code point below 256: A..Z and the Latin-1
    capitals U+00C0..U+00DE (the multiplication sign U+00D7 apart). *)
Definition lower_char (c : ascii) : ascii :=
  let n := N_of_ascii c in
  if (((65 <=? n) && (n <=? 90))
      || ((192 <=? n) && (n <=? 222) && negb (n =? 215)))%N
  then ascii_of_N (n + 32) else c.

(** [s.lower()] *)
Fixpoint lower (s : string) : string :=
  match s with
  | EmptyString => EmptyString
  | String c s' => String (lower_char c) (lower s')
  end.

(** [s.startswith(p)] *)
Fixpoint startswith (p s : string) : bool :=
  match p, s with
  | EmptyString, _ => true
  | String _ _, EmptyString => false
  | String a p', String b s' => Ascii.eqb a b && startswith p' s'
  end.

(** [sub in s] *)
Fixpoint str_in (sub s : string) : bool :=
  startswith sub s ||
  match s with
  | EmptyString => false
  | String _ s' => str_in sub s'
  end.

(** [s.find(sub)], the offset [i] of the suffix [s] being carried along;
    [-1] when [sub] does not occur. *)
Fixpoint find_from (sub s : string) (i : Z) : Z :=
  if startswith sub s then i
  else match s with
       | EmptyString => (-1)%Z
       | String _ s' => find_from sub s' (i + 1)%Z
       end.

Definition find (s sub : string) : Z := find_from sub s 0%Z.

(** [s.split()]: the maximal runs of non-whitespace characters. *)
Fixpoint split (s : string) : list string :=
  match s with
  | EmptyString => []
  | String c s' =>
      if isspace c then split s'
      else match s' with
           | EmptyString => [String c EmptyString]
           | String c' _ =>
               if isspace c' then String c EmptyString :: split s'
               else match split s' with
                    | w :: ws => String c w :: ws
                    | [] => [String c EmptyString]
                    end
           end
  end.

Fixpoint lstrip (s : string) : string :=
  match s with
  | EmptyString => EmptyString
  | String c s' => if isspace c then lstrip s' else s
  end.

Fixpoint rstrip (s : string) : string :=
  match s with
  | EmptyString => EmptyString
  | String c s' =>
      match rstrip s' with
      | EmptyString => if isspace c then EmptyString else String c EmptyString
      | r => String c r
      end
  end.

(** [s.strip()] *)
Definition strip (s : string) : string := rstrip (lstrip s).

(** [sep.join(l)] *)
Fixpoint join (sep : string) (l : list string) : string :=
  match l with
  | [] => EmptyString
  | [w] => w
  | w :: ws => w ++ sep ++ join sep ws
  end.

Fixpoint take (n : nat) (s : string) : string :=
  match n, s with
  | O, _ => EmptyString
  | S _, EmptyString => EmptyString
  | S n', String c s' => String c (take n' s')
  end.

Fixpoint drop (n : nat) (s : string) : string :=
  match n, s with
  | O, _ => s
  | S _, EmptyString => EmptyString
  | S n', String _ s' => drop n' s'
  end.

Definition len (s : string) : Z := Z.of_nat (String.length s).

(** A slice bound as Python normalises it: a negative index counts from
    the end, and the result is clamped to [0, len]. *)
Definition clamp_index (n i : Z) : nat :=
  Z.to_nat (Z.min n (Z.max 0 (if (i <? 0)%Z then n + i else i)%Z)).

(** [s[:stop]] *)
Definition slice_to (s : string) (stop : Z) : string :=
  take (clamp_index (len s) stop) s.

(** [s[start:]] *)
Definition slice_from (s : string) (start : Z) : string :=
  drop (clamp_index (len s) start) s.

(** [l[start:stop]] on a list *)
Definition slice_list {A} (l : list A) (start stop : Z) : list A :=
  let n := Z.of_nat (List.length l) in
  let a := clamp_index n start in
  let b := clamp_index n stop in
  firstn (b - a) (skipn a l).

(** [x in l] for a list of strings *)
Definition str_in_list (x : string) (l : list string) : bool :=
  existsb (String.eqb x) l.

(** A string has no whitespace character. *)
Fixpoint no_space (s : string) : bool :=
  match s with
  | EmptyString => true
  | String c s' => negb (isspace c) && no_space s'
  end.

End PyStr.

Import PyStr.

(* ================================================================== *)
(** ** The category table and the lexicon filter *)
(* ================================================================== *)

(** One entry of [BIAS_CATEGORIES]; [cfg_contexts] is [None] when the
    entry has no ["contexts"] key. *)
Record Config := mkConfig {
  cfg_description : string;
  cfg_keywords : list string;
  cfg_contexts : option (list string);
  cfg_weight : Q
}.

Definition BIAS_CATEGORIES : list (string * Config) :=
  [ ("gender_bias",
     mkConfig "Gender-based discrimination or stereotyping"
       ["women"; "men"; "female"; "male"; "girl"; "boy"; "lady"; "gentleman"]
       (Some ["not good"; "shouldn't"; "can't"; "cannot"; "too"; "only";
              "prefer"; "not suitable"])
       1.0);
    ("age_bias",
     mkConfig "Age-based discrimination"
       ["young"; "old"; "age"; "senior"; "junior"; "fresh"; "experienced";
        "millennial"; "boomer"]
       (Some ["too"; "not suitable"; "shouldn't"; "can't"; "cannot";
              "not good"; "only"; "prefer"])
       1.0);
    ("pejorative",
     mkConfig "Derogatory or insulting language"
       ["stupid"; "idiot"; "moron"; "dumb"; "pathetic"; "worthless";
        "useless"; "incompetent"; "failure"; "loser"]
       None 1.0);
    ("subjective",
     mkConfig "Opinion-based rather than fact-based language"
       ["obviously"; "clearly"; "undoubtedly"; "definitely"; "absolutely";
        "never"; "always"; "everyone"; "nobody"]
       None 0.6);
    ("exaggeration",
     mkConfig "Overstated or hyperbolic language"
       ["amazing"; "incredible"; "terrible"; "awful"; "horrible";
        "fantastic"; "perfect"; "worst"; "best"; "brilliant"]
       None 0.4);
    ("stereotyping",
     mkConfig "Generalizations based on group characteristics"
       ["typical"; "usually"; "generally"; "most"; "all"; "every"; "never";
        "always"; "tend to"; "likely"]
       None 0.8);
    ("emotional_manipulation",
     mkConfig "Language designed to evoke strong emotional responses"
       ["shocking"; "outrageous"; "disgusting"; "appalling"; "terrifying";
        "devastating"; "heartbreaking"]
       None 0.7);
    ("confirmation_bias",
     mkConfig "Language that confirms existing beliefs without evidence"
       ["as expected"; "not surprising"; "predictably"; "obviously";
        "clearly"; "undoubtedly"]
       None 0.5) ].

(** A detection, the dict appended to [detected_bias]. *)
Record Detection := mkDetection {
  det_category : string;
  det_keyword : string;
  det_position : Z;
  det_context : string;
  det_weight : Q;
  det_confidence : Q;
  det_description : string
}.

(** The inner [for i, word in enumerate(words)] loop with its [break]:
    the index of the first word whose lower-cased form contains the
    keyword, [-1] when there is none. *)
Fixpoint find_word_index (keyword : string) (words : list string) (i : Z) : Z :=
  match words with
  | [] => (-1)%Z
  | word :: rest =>
      if str_in keyword (lower word) then i
      else find_word_index keyword rest (i + 1)%Z
  end.

(** The confidence assigned to a hit of [category]. *)
Definition hit_confidence (text_lower category : string) (config : Config) : Q :=
  match cfg_contexts config with
  | Some contexts =>
      if str_in_list category ["gender_bias"; "age_bias"] then
        if existsb (fun ctx => str_in ctx text_lower) contexts then 1.0
        else if str_in_list category ["gender_bias"; "age_bias"] then 0.7
        else 0.9
      else 0.9
  | None => 0.9
  end.

(** The body of the loop over the keywords of one category. *)
Definition scan_keyword (text_lower : string) (words : list string)
    (category : string) (config : Config) (keyword : string) : list Detection :=
  if str_in keyword text_lower then
    let keyword_pos := find text_lower keyword in
    let word_index := find_word_index keyword words 0%Z in
    if (0 <=? word_index)%Z then
      let start := Z.max 0 (word_index - 2) in
      let stop := Z.min (Z.of_nat (List.length words)) (word_index + 3) in
      let context := join " " (slice_list words start stop) in
      [ mkDetection category keyword keyword_pos context
          (cfg_weight config) (hit_confidence text_lower category config)
          (cfg_description config) ]
    else []
  else [].

Definition scan_category (text_lower : string) (words : list string)
    (entry : string * Config) : list Detection :=
  flat_map (scan_keyword text_lower words (fst entry) (snd entry))
           (cfg_keywords (snd entry)).

Definition _fast_lexicon_filter (text : string) : list Detection :=
  let text_lower := lower text in
  let words := split text in
  flat_map (scan_category text_lower words) BIAS_CATEGORIES.

(* ================================================================== *)
(** ** Printing floats *)
(* ================================================================== *)

Definition Z_to_string (z : Z) : string := NilZero.string_of_int (Z.to_int z).

(** The decimal digits of [num / den] after the point, for
    [0 <= num < den], until the expansion ends or [fuel] runs out. *)
Fixpoint frac_digits (fuel : nat) (num : Z) (den : Z) : string :=
  match fuel with
  | O => EmptyString
  | S fuel' =>
      if (num =? 0)%Z then EmptyString
      else Z_to_string (num * 10 / den)
           ++ frac_digits fuel' ((num * 10) mod den)%Z den
  end.

(** [f"{x}"] for a float [x], that is [repr(x)]: the shortest decimal
    that reads back as [x], with at least one digit after the point.  On
    a rational with a terminating expansion of at most 16 digits (every
    confidence assigned in this module) that is the expansion itself. *)
Definition float_repr (x : Q) : string :=
  let n := Z.abs (Qnum x) in
  let d := Zpos (Qden x) in
  let frac := frac_digits 16 (n mod d)%Z d in
  (if (Qnum x <? 0)%Z then "-" else "")
  ++ Z_to_string (n / d) ++ "."
  ++ (if String.eqb frac "" then "0" else frac).

(** [f"{x:.2f}"]: two digits after the point, the nearest hundredth
    (ties to even) of the rational; the confidences assigned in this
    module (0.7, 0.9, 1.0) are far from a tie, so the binary float has
    the same digits. *)
Definition float_format_2f (x : Q) : string :=
  let n := Z.abs (Qnum x) in
  let d := Zpos (Qden x) in
  let q := (n * 100 / d)%Z in
  let r := ((n * 100) mod d)%Z in
  let h := (if (d <? 2 * r)%Z then q + 1
            else if (2 * r =? d)%Z then (if Z.even q then q else q + 1)
            else q)%Z in
  let cents := (h mod 100)%Z in
  (if ((Qnum x <? 0) && negb (h =? 0))%Z then "-" else "")
  ++ Z_to_string (h / 100) ++ "."
  ++ (if (cents <? 10)%Z then "0" else "") ++ Z_to_string cents.

(* ================================================================== *)
(** ** Highlighting *)
(* ================================================================== *)

(** An element of [bias_positions]. *)
Record BiasPosition := mkBiasPosition {
  bp_start : Z;
  bp_end : Z;
  bp_keyword : string;
  bp_category : string;
  bp_confidence : Q
}.

Definition to_bias_position (detection : Detection) : BiasPosition :=
  mkBiasPosition (det_position detection)
    (det_position detection + len (det_keyword detection))
    (det_keyword detection) (det_category detection)
    (det_confidence detection).

(** [bias_positions.sort(key=lambda x: x["start"], reverse=True)]:
    a stable sort by descending start, elements of equal start keeping
    their order. *)
Fixpoint insert_desc (x : BiasPosition) (l : list BiasPosition) : list BiasPosition :=
  match l with
  | [] => [x]
  | y :: l' =>
      if (bp_start y <=? bp_start x)%Z then x :: y :: l'
      else y :: insert_desc x l'
  end.

Definition sort_desc (l : list BiasPosition) : list BiasPosition :=
  fold_right insert_desc [] l.

Definition dquote : string := String "034"%char EmptyString.

Definition span_open (category : string) (confidence : Q) : string :=
  "<span style=" ++ dquote
  ++ "background-color: rgba(255, 0, 0, " ++ float_repr confidence
  ++ "); color: white; padding: 2px 4px; border-radius: 3px; font-weight: bold;"
  ++ dquote ++ " title=" ++ dquote ++ category ++ " (confidence: "
  ++ float_format_2f confidence ++ ")" ++ dquote ++ ">".

Definition span_close : string := "</span>".

(** The f-string [highlight]. *)
Definition highlight (bias : BiasPosition) : string :=
  span_open (bp_category bias) (bp_confidence bias)
  ++ bp_keyword bias ++ span_close.

Definition apply_highlight (highlighted_text : string) (bias : BiasPosition) : string :=
  slice_to highlighted_text (bp_start bias)
  ++ highlight bias
  ++ slice_from highlighted_text (bp_end bias).

Definition _highlight_biased_words (text : string)
    (bias_detections : list Detection) : string :=
  match bias_detections with
  | [] => text
  | _ =>
      let bias_positions := map to_bias_position bias_detections in
      fold_left apply_highlight (sort_desc bias_positions) text
  end.

(* ================================================================== *)
(** ** Score fusion *)
(* ================================================================== *)

Local Open Scope Q_scope.

(** [sum(detection["weight"] * detection["confidence"] for ...)] *)
Definition total_weight (bias_detections : list Detection) : Q :=
  fold_left (fun acc detection =>
               acc + det_weight detection * det_confidence detection)
            bias_detections 0.

Definition list_len {A} (l : list A) : Q := inject_Z (Z.of_nat (List.length l)).

Definition nonempty {A} (l : list A) : bool :=
  match l with [] => false | _ => true end.

Definition _calculate_overall_bias_score (bias_detections : list Detection)
    (ml_biased : bool) (ml_confidence : Q) : Q :=
  if negb (nonempty bias_detections) && negb ml_biased then 0.0
  else
    let lexicon_score :=
      if nonempty bias_detections
      then Qmin (total_weight bias_detections / list_len bias_detections) 1.0
      else 0.0 in
    let ml_score := if ml_biased then ml_confidence else 0.0 in
    let overall_score := (lexicon_score * 0.7) + (ml_score * 0.3) in
    Qmin overall_score 1.0.

(** [max(l, default=d)] *)
Definition max_default (l : list Q) (d : Q) : Q :=
  match l with
  | [] => d
  | x :: l' => fold_left Qmax l' x
  end.

(* ================================================================== *)
(** ** Exceptions and module state *)
(* ================================================================== *)

Inductive Exn :=
| HTTPException (status_code : Z)
| Exception.

(** A computation over a state [W] that returns or raises; what was
    written to the state before a raise stays written. *)
Definition M (W A : Type) : Type := W -> (Exn + A) * W.

Definition ret {W A} (a : A) : M W A := fun w => (inr a, w).

Definition raise {W A} (e : Exn) : M W A := fun w => (inl e, w).

Definition bind {W A B} (c : M W A) (k : A -> M W B) : M W B :=
  fun w =>
    match c w with
    | (inr a, w') => k a w'
    | (inl e, w') => (inl e, w')
    end.

(** [try: c  except Exception as e: handler e] *)
Definition try_except {W A} (c : M W A) (handler : Exn -> M W A) : M W A :=
  fun w =>
    match c w with
    | (inr a, w') => (inr a, w')
    | (inl e, w') => handler e w'
    end.

(** A library call that returns or raises. *)
Definition lift_option {W A} (o : option A) : M W A :=
  match o with
  | Some a => ret a
  | None => raise Exception
  end.

Declare Scope monad_scope.
Delimit Scope monad_scope with monad.
Notation "x <- c ;; k" := (bind c (fun x => k))
  (at level 61, c at next level, right associativity) : monad_scope.
Notation "c ;; k" := (bind c (fun _ => k))
  (at level 61, right associativity) : monad_scope.

(** [l[0]] *)
Definition index0 {W A} (l : list A) : M W A :=
  match l with
  | x :: _ => ret x
  | [] => raise Exception
  end.

(** [max(l)] *)
Definition py_max {W} (l : list Q) : M W Q :=
  match l with
  | x :: l' => ret (fold_left Qmax l' x)
  | [] => raise Exception
  end.

(* ================================================================== *)
(** ** The classifier and the endpoint *)
(* ================================================================== *)

Record TextPayload := mkTextPayload {
  text : string;
  session_id : option string
}.

(** An element of [categories] in the response. *)
Record CategoryEntry := mkCategoryEntry {
  cat_category : string;
  cat_description : string;
  cat_confidence : Q;
  cat_keyword : option string;
  cat_context : string;
  cat_weight : Q
}.

Record BiasResult := mkBiasResult {
  is_biased : bool;
  confidence : Q;
  categories : list CategoryEntry;
  highlighted_text : string;
  bias_score : Q;
  processing_time_ms : Q
}.

(** The calls the endpoint makes to its two components. *)
Inductive Call :=
| LexiconFilter (text : string)
| SentenceClassifier (text : string).

Section Classifier.

(** The scikit-learn pipeline object and its methods; [None] stands
    for a raised exception.  [fit] mutates the object and reports
    whether it returned. *)
Variable Pipeline : Type.
Variable new_pipeline : option Pipeline.
Variable fit : Pipeline -> Pipeline * bool.
Variable predict : Pipeline -> string -> option (list Z).
Variable predict_proba : Pipeline -> string -> option (list (list Q)).

(** The global [bias_pipeline], the clock read by [time.time()], and
    the log of component calls. *)
Record World := mkWorld {
  bias_pipeline : option Pipeline;
  clock : nat -> Q;
  ticks : nat;
  calls : list Call
}.

Definition set_bias_pipeline (p : option Pipeline) : M World unit :=
  fun w => (inr tt, mkWorld p (clock w) (ticks w) (calls w)).

Definition get_bias_pipeline : M World (option Pipeline) :=
  fun w => (inr (bias_pipeline w), w).

Definition time_time : M World Q :=
  fun w => (inr (clock w (ticks w)),
            mkWorld (bias_pipeline w) (clock w) (S (ticks w)) (calls w)).

Definition log_call (c : Call) : M World unit :=
  fun w => (inr tt,
            mkWorld (bias_pipeline w) (clock w) (ticks w) (calls w ++ [c])).

Local Open Scope monad_scope.

(** [bias_pipeline.fit(X, y)] on the fixed synthetic examples.  The
    [print] calls of the training and of the loader are left out here;
    [_load_bias_pipeline_printing] has them. *)
Definition _train_bias_classifier : M World unit :=
  g <- get_bias_pipeline ;;
  p <- lift_option g ;;
  set_bias_pipeline (Some (fst (fit p))) ;;
  if snd (fit p) then ret tt else raise Exception.

Definition _load_bias_pipeline : M World (option Pipeline) :=
  g <- get_bias_pipeline ;;
  match g with
  | None =>
      try_except
        (p <- lift_option new_pipeline ;;
         set_bias_pipeline (Some p) ;;
         _train_bias_classifier)
        (fun _ => raise (HTTPException 500)) ;;
      get_bias_pipeline
  | Some _ => get_bias_pipeline
  end.

(** The body of the [try] block of [_sentence_level_classification]. *)
Definition classification_body (text : string) : M World (bool * Q) :=
  pipeline <- _load_bias_pipeline ;;
  p <- lift_option pipeline ;;
  prediction <- lift_option (predict p text) ;;
  probability <- lift_option (predict_proba p text) ;;
  label <- index0 prediction ;;
  is_biased <- ret (negb (label =? 0)%Z) ;;
  row <- index0 probability ;;
  confidence <- py_max row ;;
  ret (is_biased, confidence).

Definition _sentence_level_classification (text : string) : M World (bool * Q) :=
  log_call (SentenceClassifier text) ;;
  try_except (classification_body text) (fun _ => ret (false, 0.0)).

(** The call [_fast_lexicon_filter(text)] as the endpoint makes it. *)
Definition call_fast_lexicon_filter (text : string) : M World (list Detection) :=
  log_call (LexiconFilter text) ;;
  ret (_fast_lexicon_filter text).

Definition category_of_detection (detection : Detection) : CategoryEntry :=
  mkCategoryEntry (det_category detection) (det_description detection)
    (det_confidence detection) (Some (det_keyword detection))
    (det_context detection) (det_weight detection).

Definition general_bias (ml_confidence : Q) (text : string) : CategoryEntry :=
  mkCategoryEntry "general_bias"
    "General biased language detected by ML classifier"
    ml_confidence None text 0.5.

(** The body of the [try] block of [detect_realtime_bias]. *)
Definition realtime_pipeline (payload : TextPayload) (start_time : Q)
  : M World BiasResult :=
  let text := strip (text payload) in
  if String.eqb text "" then
    ret (mkBiasResult false 0.0 [] "" 0.0 0.0)
  else
    lexicon_bias <- call_fast_lexicon_filter text ;;
    ml <- _sentence_level_classification text ;;
    let ml_biased := fst ml in
    let ml_confidence := snd ml in
    let is_biased := nonempty lexicon_bias || ml_biased in
    let overall_confidence :=
      Qmax (max_default (map det_confidence lexicon_bias) 0.0) ml_confidence in
    let bias_score :=
      _calculate_overall_bias_score lexicon_bias ml_biased ml_confidence in
    let highlighted_text := _highlight_biased_words text lexicon_bias in
    let categories :=
      map category_of_detection lexicon_bias
      ++ (if ml_biased && negb (nonempty lexicon_bias)
          then [general_bias ml_confidence text] else []) in
    now <- time_time ;;
    let processing_time := (now - start_time) * 1000 in
    ret (mkBiasResult is_biased overall_confidence categories
           highlighted_text bias_score processing_time).

(** The result built by the [except] block. *)
Definition fallback_result (payload : TextPayload) (start_time : Q)
  : M World BiasResult :=
  now <- time_time ;;
  ret (mkBiasResult false 0.0 [] (text payload) 0.0
         ((now - start_time) * 1000)).

(** [detect_realtime_bias], its [try] body given as an argument. *)
Definition detect_realtime_bias_with
    (body : TextPayload -> Q -> M World BiasResult)
    (payload : TextPayload) : M World BiasResult :=
  start_time <- time_time ;;
  try_except (body payload start_time)
             (fun _ => fallback_result payload start_time).

Definition detect_realtime_bias : TextPayload -> M World BiasResult :=
  detect_realtime_bias_with realtime_pipeline.

(** What the classifier answers for [text] when the global holds [g]. *)
Definition classifier_verdict (g : option Pipeline) (text : string) : bool * Q :=
  match fst (_sentence_level_classification text (mkWorld g (fun _ => 0) O [])) with
  | inr verdict => verdict
  | inl _ => (false, 0.0)
  end.

(** The global after the classifier has been called once. *)
Definition pipeline_after_call (g : option Pipeline) : option Pipeline :=
  bias_pipeline (snd (_load_bias_pipeline (mkWorld g (fun _ => 0) O []))).

End Classifier.

Arguments mkWorld {Pipeline}.
Arguments bias_pipeline {Pipeline}.
Arguments clock {Pipeline}.
Arguments ticks {Pipeline}.
Arguments calls {Pipeline}.
Arguments time_time {Pipeline}.
Arguments log_call {Pipeline}.
Arguments set_bias_pipeline {Pipeline}.
Arguments get_bias_pipeline {Pipeline}.
Arguments _train_bias_classifier {Pipeline}.
Arguments _load_bias_pipeline {Pipeline}.
Arguments classification_body {Pipeline}.
Arguments _sentence_level_classification {Pipeline}.
Arguments call_fast_lexicon_filter {Pipeline}.
Arguments realtime_pipeline {Pipeline}.
Arguments fallback_result {Pipeline}.
Arguments detect_realtime_bias_with {Pipeline}.
Arguments detect_realtime_bias {Pipeline}.
Arguments classifier_verdict {Pipeline}.
Arguments pipeline_after_call {Pipeline}.

(* ================================================================== *)
(** ** The sentiment scorer *)
(* ================================================================== *)

(** The dict returned by [polarity_scores]. *)
Record VaderScores := mkVaderScores {
  neg : Q;
  neu : Q;
  pos : Q;
  compound : Q
}.

(** The single element of the ["result"] list of the response. *)
Record SentimentResult := mkSentimentResult {
  label : string;
  score : Q;
  vader_scores : option VaderScores;
  error : bool
}.

Section Sentiment.

(** The VADER analyzer; [None] stands for a raised exception. *)
Variable Analyzer : Type.
Variable SentimentIntensityAnalyzer : option Analyzer.
Variable polarity_scores : Analyzer -> string -> option VaderScores.

Local Open Scope monad_scope.

(** The state is the global [vader_analyzer]. *)
Definition _load_vader_analyzer : M (option Analyzer) (option Analyzer) :=
  fun vader_analyzer =>
    match vader_analyzer with
    | None =>
        (try_except
           (a <- lift_option SentimentIntensityAnalyzer ;;
            fun _ => (inr tt, Some a))
           (fun _ => raise (HTTPException 500)) ;;
         fun g => (inr g, g)) vader_analyzer
    | Some _ => (inr vader_analyzer, vader_analyzer)
    end.

Definition classify_compound (scores : VaderScores) : SentimentResult :=
  let compound_score := compound scores in
  if Qle_bool 0.05 compound_score then
    mkSentimentResult "POSITIVE" compound_score (Some scores) false
  else if Qle_bool compound_score (-0.05) then
    mkSentimentResult "NEGATIVE" (Qabs compound_score) (Some scores) false
  else
    mkSentimentResult "NEUTRAL" 0.5 (Some scores) false.

Definition analyze_sentiment (payload : TextPayload)
  : M (option Analyzer) SentimentResult :=
  try_except
    (analyzer <- _load_vader_analyzer ;;
     a <- lift_option analyzer ;;
     scores <- lift_option (polarity_scores a (text payload)) ;;
     ret (classify_compound scores))
    (fun _ => ret (mkSentimentResult "NEUTRAL" 0.5 None true)).

End Sentiment.

(* ================================================================== *)
(** ** Notions of the specification *)
(* ================================================================== *)

Definition context_categories : list string := ["gender_bias"; "age_bias"].

(** The ["contexts"] list of a category of [BIAS_CATEGORIES], empty when
    the category has none. *)
Definition contexts_of (category : string) : list string :=
  match List.find (fun entry => String.eqb (fst entry) category) BIAS_CATEGORIES with
  | Some (_, config) =>
      match cfg_contexts config with
      | Some contexts => contexts
      | None => []
      end
  | None => []
  end.

(** [phrase] occurs in [text] up to the case of letters. *)
Definition occurs_ci (phrase text : string) : Prop :=
  exists pre mid post, text = (pre ++ mid ++ post)%string /\ lower mid = lower phrase.

(** The first word of a string that starts with a word, and what
    follows it. *)
Fixpoint first_word (s : string) : string :=
  match s with
  | EmptyString => EmptyString
  | String c s' => if isspace c then EmptyString else String c (first_word s')
  end.

Fixpoint after_word (s : string) : string :=
  match s with
  | EmptyString => EmptyString
  | String c s' => if isspace c then s else after_word s'
  end.

(** The detections of a given category and keyword. *)
Definition is_pair (category keyword : string) (d : Detection) : bool :=
  String.eqb (det_category d) category && String.eqb (det_keyword d) keyword.

Definition pair_count (category keyword : string) (l : list Detection) : nat :=
  List.length (List.filter (is_pair category keyword) l).

(** The keywords of the table that contain a space. *)
Definition multi_word_keywords : list string :=
  ["tend to"; "as expected"; "not surprising"].

(** The formula of the specification. *)
Definition weighted_sum (detections : list Detection) : Q :=
  fold_right (fun d acc => det_weight d * det_confidence d + acc) 0 detections.

Definition lexicon_component (detections : list Detection) : Q :=
  match detections with
  | [] => 0
  | _ => Qmin 1 (weighted_sum detections / list_len detections)
  end.

Definition ml_component (ml_biased : bool) (ml_confidence : Q) : Q :=
  if ml_biased then ml_confidence else 0.

(** The ranges the data model gives to a detection's weight and
    confidence. *)
Definition detection_in_range (d : Detection) : Prop :=
  0 <= det_weight d <= 1 /\ 0 <= det_confidence d <= 1.

(** Removing the markers of the highlighting step: every occurrence of
    the closing tag and of an opening tag written for one of the
    detections is deleted, the text is scanned from the left. *)
Definition markers (detections : list Detection) : list string :=
  span_close
  :: map (fun d => span_open (det_category d) (det_confidence d)) detections.

Fixpoint strip_from (ms : list string) (skip : nat) (s : string) : string :=
  match s with
  | EmptyString => EmptyString
  | String c s' =>
      match skip with
      | S k => strip_from ms k s'
      | O =>
          match List.find (fun m => startswith m s) ms with
          | Some m => strip_from ms (String.length m - 1) s'
          | None => String c (strip_from ms 0 s')
          end
      end
  end.

Definition strip_markers (detections : list Detection) (s : string) : string :=
  strip_from (markers detections) 0 s.

(** The fused verdict: [r] is biased exactly when the filter found
    something or the classifier flagged the text, and its confidence is
    the largest of the detection confidences and the classifier's
    (0.0 standing in when there is no detection). *)
Definition fused_verdict (lexicon_bias : list Detection) (ml : bool * Q)
    (r : BiasResult) : Prop :=
  (is_biased r = true <-> lexicon_bias <> [] \/ fst ml = true) /\
  (forall d, In d lexicon_bias -> det_confidence d <= confidence r) /\
  snd ml <= confidence r /\
  (confidence r = snd ml
   \/ (exists d, In d lexicon_bias /\ confidence r = det_confidence d)
   \/ (lexicon_bias = [] /\ confidence r = 0.0)).

(** The record the endpoint builds from the stripped text, the
    classifier's verdict and the measured time. *)
Definition fused_result (text : string) (ml : bool * Q) (elapsed_ms : Q)
  : BiasResult :=
  let lexicon_bias := _fast_lexicon_filter text in
  mkBiasResult
    (nonempty lexicon_bias || fst ml)
    (Qmax (max_default (map det_confidence lexicon_bias) 0.0) (snd ml))
    (map category_of_detection lexicon_bias
     ++ (if fst ml && negb (nonempty lexicon_bias)
         then [general_bias (snd ml) text] else []))
    (_highlight_biased_words text lexicon_bias)
    (_calculate_overall_bias_score lexicon_bias (fst ml) (snd ml))
    elapsed_ms.

(** The result of the empty-input shortcut. *)
Definition clean_result : BiasResult := mkBiasResult false 0.0 [] "" 0.0 0.0.

(** Two results agree on every field but the measured time. *)
Definition same_verdict (r1 r2 : BiasResult) : Prop :=
  is_biased r1 = is_biased r2 /\
  confidence r1 = confidence r2 /\
  categories r1 = categories r2 /\
  highlighted_text r1 = highlighted_text r2 /\
  bias_score r1 = bias_score r2.

(** A classifier for the examples: it is built and fitted without
    error, labels every text 0 and gives both classes probability 0.5,
    as a naive Bayes model with equal priors does on a text without
    features. *)
Definition even_new_pipeline : option unit := Some tt.
Definition even_fit (p : unit) : unit * bool := (p, true).
Definition even_predict (p : unit) (text : string) : option (list Z) :=
  Some [0%Z].
Definition even_predict_proba (p : unit) (text : string)
  : option (list (list Q)) := Some [[0.5; 0.5]].

(** A world whose clock reads 0, 1, 4, 9, ... and whose classifier is
    fitted. *)
Definition square_clock (n : nat) : Q := inject_Z (Z.of_nat (n * n)).
Definition fitted_world : World unit := mkWorld (Some tt) square_clock O [].
Definition fresh_world : World unit := mkWorld None square_clock O [].

(** Payloads used as examples, and the endpoint over the example
    classifier. *)
Definition blank_payload : TextPayload := mkTextPayload " " None.
Definition hello_payload : TextPayload := mkTextPayload "hello" None.
Definition stupid_payload : TextPayload :=
  mkTextPayload "This is a stupid idea" None.

Definition detect_even : TextPayload -> M (World unit) BiasResult :=
  detect_realtime_bias even_new_pipeline even_fit even_predict
    even_predict_proba.

(** An analyzer for the examples, with a fixed compound score. *)
Definition fixed_analyzer : option unit := Some tt.
Definition fixed_polarity_scores (a : unit) (text : string)
  : option VaderScores := Some (mkVaderScores 0.0 0.4 0.6 0.6).

(** Detections used as examples. *)
Definition women_detection : Detection :=
  mkDetection "gender_bias" "women" 10 "We prefer women here" 1.0 1.0
    "Gender-based discrimination or stereotyping".

Definition stupid_detection : Detection :=
  mkDetection "pejorative" "stupid" 10 "is a stupid idea" 1.0 0.9
    "Derogatory or insulting language".

(* ================================================================== *)
(** ** Further code of the routers *)
(* ================================================================== *)

(** What a detection says apart from the letter case of its context. *)
Definition detection_key (d : Detection)
  : string * string * Z * string * Q * Q * string :=
  (det_category d, det_keyword d, det_position d, lower (det_context d),
   det_weight d, det_confidence d, det_description d).

(** An element of the ["results"] list of [batch_detect_bias]. *)
Record BatchEntry := mkBatchEntry {
  be_text : string;
  be_result : BiasResult
}.

Section Batch.

Variable Pipeline : Type.
Variable new_pipeline : option Pipeline.
Variable fit : Pipeline -> Pipeline * bool.
Variable predict : Pipeline -> string -> option (list Z).
Variable predict_proba : Pipeline -> string -> option (list (list Q)).

Local Open Scope monad_scope.

(** The [for text in texts] loop of [batch_detect_bias], [results]
    being the list built so far. *)
Fixpoint batch_loop (texts : list string) (results : list BatchEntry)
  : M (World Pipeline) (list BatchEntry) :=
  match texts with
  | [] => ret results
  | text :: rest =>
      let payload := mkTextPayload text None in
      result <- detect_realtime_bias new_pipeline fit predict predict_proba
                  payload ;;
      batch_loop rest (results ++ [mkBatchEntry text result])
  end.

(** [batch_detect_bias]: the results and ["total_processed"]. *)
Definition batch_detect_bias (texts : list string)
  : M (World Pipeline) (list BatchEntry * Z) :=
  results <- batch_loop texts [] ;;
  ret (results, Z.of_nat (List.length texts)).

(** The pipeline the classifier works with when the global holds [g]:
    the one [_load_bias_pipeline] returns, if it returns one. *)
Definition loaded_pipeline (g : option Pipeline) : option Pipeline :=
  match fst (_load_bias_pipeline new_pipeline fit
               (mkWorld g (fun _ => 0) O [])) with
  | inr (Some p) => Some p
  | _ => None
  end.

End Batch.

Arguments batch_loop {Pipeline}.
Arguments batch_detect_bias {Pipeline}.
Arguments loaded_pipeline {Pipeline}.

(** The loader and the training once more, now with their [print]
    calls.  The three messages begin with a pictograph (U+2705 or
    U+274C), and [print] raises UnicodeEncodeError when the encoding of
    standard output does not have it; [Exception] stands for that
    error.  What is printed is not kept. *)
Section Console.

Variable Pipeline : Type.
Variable new_pipeline : option Pipeline.
Variable fit : Pipeline -> Pipeline * bool.

(** Whether the encoding of standard output has the two pictographs. *)
Variable stdout_encodes : bool.

Local Open Scope monad_scope.

Definition print_pictograph : M (World Pipeline) unit :=
  if stdout_encodes then ret tt else raise Exception.

Definition _train_bias_classifier_printing : M (World Pipeline) unit :=
  g <- get_bias_pipeline ;;
  p <- lift_option g ;;
  set_bias_pipeline (Some (fst (fit p))) ;;
  (if snd (fit p) then ret tt else raise Exception) ;;
  print_pictograph.

Definition _load_bias_pipeline_printing : M (World Pipeline) (option Pipeline) :=
  g <- get_bias_pipeline ;;
  match g with
  | None =>
      try_except
        (p <- lift_option new_pipeline ;;
         set_bias_pipeline (Some p) ;;
         _train_bias_classifier_printing ;;
         print_pictograph)
        (fun _ => print_pictograph ;; raise (HTTPException 500)) ;;
      get_bias_pipeline
  | Some _ => get_bias_pipeline
  end.

End Console.

Arguments print_pictograph {Pipeline}.
Arguments _train_bias_classifier_printing {Pipeline}.
Arguments _load_bias_pipeline_printing {Pipeline}.

Definition raising_predict (p : unit) (text : string) : option (list Z) :=
  None.
Definition flag_predict (p : unit) (text : string) : option (list Z) :=
  Some [1%Z].
Definition flag_predict_proba (p : unit) (text : string)
  : option (list (list Q)) := Some [[0.2; 0.8]].

(** The analyzer that serves a call of [analyze_sentiment]: the one in
    the global, or a newly built one. *)
Definition serving_vader_analyzer {Analyzer : Type}
    (SentimentIntensityAnalyzer vader_analyzer : option Analyzer)
  : option Analyzer :=
  match vader_analyzer with
  | Some a => Some a
  | None => SentimentIntensityAnalyzer
  end.

(* ------------------------------------------------------------------ *)
(** *** [unified_analysis.py] *)

(** [a < b] on floats. *)
Definition Qlt_bool (a b : Q) : bool := negb (Qle_bool b a).

(** The values held by the dicts of flagged items, and a dict as the
    list of its items in insertion order. *)
Inductive PyValue :=
| PyNone
| PyStr (s : string)
| PyInt (z : Z)
| PyFloat (q : Q).

Definition PyDict : Type := list (string * PyValue).

(** [d.get(key)] *)
Fixpoint dict_get (key : string) (d : PyDict) : PyValue :=
  match d with
  | [] => PyNone
  | (k, v) :: d' => if String.eqb k key then v else dict_get key d'
  end.

(** [d[key]], [None] standing for KeyError. *)
Fixpoint dict_index (key : string) (d : PyDict) : option PyValue :=
  match d with
  | [] => None
  | (k, v) :: d' => if String.eqb k key then Some v else dict_index key d'
  end.

(** [a == b] *)
Definition py_eq (a b : PyValue) : bool :=
  match a, b with
  | PyNone, PyNone => true
  | PyStr x, PyStr y => String.eqb x y
  | PyInt x, PyInt y => (x =? y)%Z
  | PyFloat x, PyFloat y => Qeq_bool x y
  | PyInt x, PyFloat y => Qeq_bool (inject_Z x) y
  | PyFloat x, PyInt y => Qeq_bool x (inject_Z y)
  | _, _ => false
  end.

Definition py_optional_str (o : option string) : PyValue :=
  match o with
  | Some s => PyStr s
  | None => PyNone
  end.

Record UnifiedAnalysisRequest := mkUnifiedAnalysisRequest {
  req_text : string;
  req_session_id : option string;
  req_user_id : option Z
}.

(** The dict returned by [_get_sentiment_analysis]. *)
Record SentimentAnalysis := mkSentimentAnalysis {
  sa_label : string;
  sa_confidence : Q;
  sa_scores : VaderScores;
  sa_status : string;
  sa_error : bool
}.

(** The dict returned by [_get_bias_detection]. *)
Record BiasDetection := mkBiasDetection {
  bd_is_biased : bool;
  bd_confidence : Q;
  bd_bias_score : Q;
  bd_categories : list Detection;
  bd_status : string;
  bd_error : bool
}.

(** The messages of [_generate_insights].  Their texts start with
    pictographs and the list of categories is printed in the iteration
    order of a set; a message is identified here by its kind, with the
    list of category names the set is built from. *)
Inductive Insight :=
| NegativeSentimentInsight
| PositiveSentimentInsight
| PotentialBiasInsight
| DetectedCategoriesInsight (categories : list string)
| CombinedInsight.

Record UnifiedAnalysisResponse := mkUnifiedAnalysisResponse {
  has_issues : bool;
  overall_score : Q;
  sentiment : SentimentAnalysis;
  bias_detection : BiasDetection;
  insights : list Insight;
  recommendations : list string;
  flagged_items : list PyDict;
  ua_processing_time_ms : Q;
  timestamp : string
}.

(** The summary returned by [get_flagged_detections]. *)
Record FlaggedReport := mkFlaggedReport {
  total_flagged : Z;
  report_items : list PyDict;
  summary_negative_sentiment : Z;
  summary_bias_detection : Z
}.

(** [len([item for item in items if item["type"] == kind])] *)
Fixpoint count_type (kind : string) (items : list PyDict) : option Z :=
  match items with
  | [] => Some 0%Z
  | item :: rest =>
      match dict_index "type" item, count_type kind rest with
      | Some v, Some n => Some (if py_eq v (PyStr kind) then n + 1 else n)%Z
      | _, _ => None
      end
  end.

Definition _generate_insights (sentiment : SentimentAnalysis)
    (bias : BiasDetection) : list Insight :=
  let insights := [] in
  let insights :=
    if String.eqb (sa_label sentiment) "NEGATIVE"
       && Qlt_bool 0.5 (sa_confidence sentiment)
    then insights ++ [NegativeSentimentInsight]
    else if String.eqb (sa_label sentiment) "POSITIVE"
            && Qlt_bool 0.5 (sa_confidence sentiment)
    then insights ++ [PositiveSentimentInsight]
    else insights in
  let insights :=
    if bd_is_biased bias then
      let insights := insights ++ [PotentialBiasInsight] in
      if nonempty (bd_categories bias)
      then insights
           ++ [DetectedCategoriesInsight (map det_category (bd_categories bias))]
      else insights
    else insights in
  if String.eqb (sa_label sentiment) "NEGATIVE" && bd_is_biased bias
  then insights ++ [CombinedInsight]
  else insights.

(** The loop over [bias["categories"]] of [_generate_recommendations]. *)
Fixpoint category_recommendations (categories : list Detection)
    (recommendations : list string) : list string :=
  match categories with
  | [] => recommendations
  | category :: rest =>
      category_recommendations rest
        (if String.eqb (det_category category) "gender_bias"
         then recommendations
              ++ ["Avoid gender-specific language or assumptions"]
         else if String.eqb (det_category category) "age_bias"
         then recommendations
              ++ ["Focus on skills and experience rather than age"]
         else recommendations)
  end.

Definition _generate_recommendations (sentiment : SentimentAnalysis)
    (bias : BiasDetection) : list string :=
  let recommendations := [] in
  let recommendations :=
    if String.eqb (sa_label sentiment) "NEGATIVE"
       && Qlt_bool 0.5 (sa_confidence sentiment)
    then recommendations
         ++ ["Consider using more neutral or positive language"]
    else recommendations in
  let recommendations :=
    if bd_is_biased bias then
      let recommendations :=
        recommendations
        ++ ["Review text for potential bias and use inclusive language"] in
      if nonempty (bd_categories bias)
      then category_recommendations (bd_categories bias) recommendations
      else recommendations
    else recommendations in
  if negb (bd_is_biased bias) && String.eqb (sa_label sentiment) "POSITIVE"
  then recommendations
       ++ ["Text appears unbiased and positive - good to go!"]
  else recommendations.

Section Unified.

Variable Pipeline : Type.
Variable new_pipeline : option Pipeline.
Variable fit : Pipeline -> Pipeline * bool.
Variable predict : Pipeline -> string -> option (list Z).
Variable predict_proba : Pipeline -> string -> option (list (list Q)).

Variable Analyzer : Type.
Variable SentimentIntensityAnalyzer : option Analyzer.
Variable polarity_scores : Analyzer -> string -> option VaderScores.

(** [datetime.isoformat] *)
Variable isoformat : Q -> string.

(** The state of the two modules: the world of [realtime_bias] and the
    global list [flagged_detections]. *)
Record UWorld := mkUWorld {
  uw_world : World Pipeline;
  flagged_detections : list PyDict
}.

(** A computation of [realtime_bias] run from [unified_analysis]. *)
Definition lift_world {A} (c : M (World Pipeline) A) : M UWorld A :=
  fun uw =>
    (fst (c (uw_world uw)),
     mkUWorld (snd (c (uw_world uw))) (flagged_detections uw)).

(** [datetime.now()] reads the clock. *)
Definition datetime_now : M UWorld Q := lift_world time_time.

Local Open Scope monad_scope.

Definition sentiment_fallback : SentimentAnalysis :=
  mkSentimentAnalysis "NEUTRAL" 0.0 (mkVaderScores 0 1 0 0) "error" true.

Definition _get_sentiment_analysis (text : string)
  : M UWorld SentimentAnalysis :=
  try_except
    (analyzer <- lift_option SentimentIntensityAnalyzer ;;
     scores <- lift_option (polarity_scores analyzer text) ;;
     let sentiment_label :=
       if Qle_bool 0.05 (compound scores) then "POSITIVE"
       else if Qle_bool (compound scores) (-0.05) then "NEGATIVE"
       else "NEUTRAL" in
     ret (mkSentimentAnalysis sentiment_label (Qabs (compound scores))
            scores "success" false))
    (fun _ => ret sentiment_fallback).

Definition _get_bias_detection (text : string) : M (World Pipeline) BiasDetection :=
  try_except
    (lexicon_bias <- call_fast_lexicon_filter text ;;
     ml <- _sentence_level_classification new_pipeline fit predict
             predict_proba text ;;
     let ml_biased := fst ml in
     let ml_confidence := snd ml in
     let is_biased := nonempty lexicon_bias || ml_biased in
     let confidence :=
       Qmax (max_default (map det_confidence lexicon_bias) 0.0)
            ml_confidence in
     let bias_score :=
       if nonempty lexicon_bias
       then Qmin (total_weight lexicon_bias / list_len lexicon_bias) 1.0
       else 0.0 in
     ret (mkBiasDetection is_biased confidence bias_score lexicon_bias
            "success" false))
    (fun _ => ret (mkBiasDetection false 0.0 0.0 [] "error" true)).

Definition negative_sentiment_item (sentiment : SentimentAnalysis)
    (now : Q) (session_id : option string) : PyDict :=
  [ ("type", PyStr "negative_sentiment");
    ("severity", PyStr "medium");
    ("confidence", PyFloat (sa_confidence sentiment));
    ("description",
     PyStr ("Negative sentiment detected (confidence: "
            ++ float_format_2f (sa_confidence sentiment) ++ ")"));
    ("timestamp", PyStr (isoformat now));
    ("session_id", py_optional_str session_id) ].

Definition bias_detection_item (category : Detection) (now : Q)
    (session_id : option string) : PyDict :=
  [ ("type", PyStr "bias_detection");
    ("severity", PyStr "high");
    ("confidence", PyFloat (det_confidence category));
    ("category", PyStr (det_category category));
    ("description",
     PyStr (det_category category ++ " bias detected: "
            ++ det_keyword category));
    ("context", PyStr (det_context category));
    ("timestamp", PyStr (isoformat now));
    ("session_id", py_optional_str session_id) ].

(** The loop over [bias["categories"]] of [_track_flagged_detection]. *)
Fixpoint track_categories (categories : list Detection)
    (session_id : option string) (flagged_items : list PyDict)
  : M UWorld (list PyDict) :=
  match categories with
  | [] => ret flagged_items
  | category :: rest =>
      now <- datetime_now ;;
      track_categories rest session_id
        (flagged_items ++ [bias_detection_item category now session_id])
  end.

(** [flagged_detections.extend(flagged_items)] *)
Definition extend_flagged_detections (flagged_items : list PyDict)
  : M UWorld unit :=
  fun uw =>
    (inr tt,
     mkUWorld (uw_world uw) (flagged_detections uw ++ flagged_items)).

Definition _track_flagged_detection (text : string)
    (sentiment : SentimentAnalysis) (bias : BiasDetection)
    (session_id : option string) : M UWorld (list PyDict) :=
  flagged_items <-
    (if String.eqb (sa_label sentiment) "NEGATIVE"
        && Qlt_bool 0.5 (sa_confidence sentiment)
     then now <- datetime_now ;;
          ret [negative_sentiment_item sentiment now session_id]
     else ret []) ;;
  flagged_items <-
    (if bd_is_biased bias
     then track_categories (bd_categories bias) session_id flagged_items
     else ret flagged_items) ;;
  extend_flagged_detections flagged_items ;;
  ret flagged_items.

(** The score computed by the two [if] statements of the endpoint. *)
Definition unified_overall_score (sentiment : SentimentAnalysis)
    (bias : BiasDetection) : Q :=
  let overall_score := 0.0 in
  let overall_score :=
    if String.eqb (sa_label sentiment) "NEGATIVE"
    then overall_score + sa_confidence sentiment * 0.4
    else overall_score in
  if bd_is_biased bias
  then overall_score + bd_bias_score bias * 0.6
  else overall_score.

Definition unified_analysis_public (request : UnifiedAnalysisRequest)
  : M UWorld UnifiedAnalysisResponse :=
  start_time <- lift_world time_time ;;
  try_except
    (let text := strip (req_text request) in
     if String.eqb text "" then raise (HTTPException 400)
     else
       sentiment <- _get_sentiment_analysis text ;;
       bias <- lift_world (_get_bias_detection text) ;;
       let insights := _generate_insights sentiment bias in
       let recommendations := _generate_recommendations sentiment bias in
       flagged_items <- _track_flagged_detection text sentiment bias None ;;
       let overall_score := unified_overall_score sentiment bias in
       let has_issues :=
         Qlt_bool 0.3 overall_score || nonempty flagged_items in
       now <- lift_world time_time ;;
       let processing_time := (now - start_time) * 1000 in
       stamp <- datetime_now ;;
       ret (mkUnifiedAnalysisResponse has_issues overall_score sentiment
              bias insights recommendations flagged_items processing_time
              (isoformat stamp)))
    (fun _ => raise (HTTPException 500)).

(** [get_flagged_detections], [current_user_id] being [current_user.id]. *)
Definition get_flagged_detections (current_user_id : Z)
  : M UWorld FlaggedReport :=
  fun uw =>
    let user_flagged :=
      List.filter (fun item => py_eq (dict_get "user_id" item)
                                     (PyInt current_user_id))
                  (flagged_detections uw) in
    (negative <- lift_option (count_type "negative_sentiment" user_flagged) ;;
     biased <- lift_option (count_type "bias_detection" user_flagged) ;;
     ret (mkFlaggedReport (Z.of_nat (List.length user_flagged)) user_flagged
            negative biased)) uw.

Definition clear_flagged_detections : M UWorld unit :=
  fun uw => (inr tt, mkUWorld (uw_world uw) []).

(** The requests that touch [flagged_detections], and the state after a
    sequence of them. *)
Inductive UnifiedCall :=
| CallAnalyzePublic (request : UnifiedAnalysisRequest)
| CallClear.

Definition run_call (call : UnifiedCall) (uw : UWorld) : UWorld :=
  match call with
  | CallAnalyzePublic request => snd (unified_analysis_public request uw)
  | CallClear => snd (clear_flagged_detections uw)
  end.

Definition run_calls (calls : list UnifiedCall) (uw : UWorld) : UWorld :=
  fold_left (fun uw call => run_call call uw) calls uw.

End Unified.

Arguments mkUWorld {Pipeline}.
Arguments uw_world {Pipeline}.
Arguments flagged_detections {Pipeline}.
Arguments lift_world {Pipeline A}.
Arguments datetime_now {Pipeline}.
Arguments _get_sentiment_analysis {Pipeline Analyzer}.
Arguments _get_bias_detection {Pipeline}.
Arguments track_categories {Pipeline}.
Arguments extend_flagged_detections {Pipeline}.
Arguments _track_flagged_detection {Pipeline}.
Arguments unified_analysis_public {Pipeline} _ _ _ _ {Analyzer}.
Arguments get_flagged_detections {Pipeline}.
Arguments clear_flagged_detections {Pipeline}.
Arguments run_call {Pipeline} _ _ _ _ {Analyzer}.
Arguments run_calls {Pipeline} _ _ _ _ {Analyzer}.

(** The dict [_get_sentiment_analysis] returns, as a function of the
    analyzer's answer. *)
Definition sentiment_value {Analyzer : Type}
    (SentimentIntensityAnalyzer : option Analyzer)
    (polarity_scores : Analyzer -> string -> option VaderScores)
    (text : string) : SentimentAnalysis :=
  match SentimentIntensityAnalyzer with
  | Some analyzer =>
      match polarity_scores analyzer text with
      | Some scores =>
          mkSentimentAnalysis
            (if Qle_bool 0.05 (compound scores) then "POSITIVE"
             else if Qle_bool (compound scores) (-0.05) then "NEGATIVE"
             else "NEUTRAL")
            (Qabs (compound scores)) scores "success" false
      | None => sentiment_fallback
      end
  | None => sentiment_fallback
  end.

(** The dict [_get_bias_detection] returns, as a function of the
    detections and of the classifier's verdict. *)
Definition bias_value (lexicon_bias : list Detection) (ml : bool * Q)
  : BiasDetection :=
  mkBiasDetection
    (nonempty lexicon_bias || fst ml)
    (Qmax (max_default (map det_confidence lexicon_bias) 0.0) (snd ml))
    (if nonempty lexicon_bias
     then Qmin (total_weight lexicon_bias / list_len lexicon_bias) 1.0
     else 0.0)
    lexicon_bias "success" false.

(** A flagged item without the key ["user_id"]. *)
Definition lacks_user_id (item : PyDict) : Prop :=
  dict_get "user_id" item = PyNone.

(** The sentiment counts as negative for the report. *)
Definition negative_flag (sentiment : SentimentAnalysis) : bool :=
  String.eqb (sa_label sentiment) "NEGATIVE"
  && Qlt_bool 0.5 (sa_confidence sentiment).

(** The texts of three recommendations. *)
Definition good_to_go : string :=
  "Text appears unbiased and positive - good to go!".
Definition review_text : string :=
  "Review text for potential bias and use inclusive language".
Definition gender_advice : string :=
  "Avoid gender-specific language or assumptions".

(** The number of detections of a category. *)
Definition count_category (category : string) (l : list Detection) : nat :=
  List.length (List.filter (fun d => String.eqb (det_category d) category) l).

(** Examples for the unified analysis. *)
Definition plain_isoformat (t : Q) : string := "2024-01-01T00:00:00".
Definition negative_polarity_scores (a : unit) (text : string)
  : option VaderScores := Some (mkVaderScores 0.7 0.3 0.0 (-0.8)).
Definition fresh_uworld : UWorld unit := mkUWorld fresh_world [].

Definition blank_request : UnifiedAnalysisRequest :=
  mkUnifiedAnalysisRequest "  " None None.
Definition stupid_request : UnifiedAnalysisRequest :=
  mkUnifiedAnalysisRequest "women are stupid" None None.
Definition analyze_public_negative
  : UnifiedAnalysisRequest -> M (UWorld unit) UnifiedAnalysisResponse :=
  unified_analysis_public even_new_pipeline even_fit even_predict
    even_predict_proba fixed_analyzer negative_polarity_scores plain_isoformat.
Definition example_calls : list UnifiedCall :=
  [CallAnalyzePublic stupid_request; CallAnalyzePublic blank_request;
   CallAnalyzePublic stupid_request].

(** The entry of pejorative in the table. *)
Definition pejorative_config : Config :=
  mkConfig "Derogatory or insulting language"
    ["stupid"; "idiot"; "moron"; "dumb"; "pathetic"; "worthless";
     "useless"; "incompetent"; "failure"; "loser"]
    None 1.0.

(* ================================================================== *)
(** ** Facts about the string primitives *)
(* ================================================================== *)

Local Open Scope string_scope.

Lemma startswith_spec (p s : string) :
  startswith p s = true <-> exists t, s = p ++ t.
Proof.
  revert s; induction p as [|a p IH]; intros s; simpl.
  - split; [intros _; now exists s | reflexivity].
  - destruct s as [|b s].
    + split; [discriminate | intros [t Ht]; discriminate].
    + rewrite andb_true_iff, Ascii.eqb_eq, IH. split.
      * intros [-> [t ->]]. now exists t.
      * intros [t Ht]. injection Ht as -> ->. split; [reflexivity | now exists t].
Qed.

Lemma str_in_spec (sub s : string) :
  str_in sub s = true <-> exists pre post, s = pre ++ sub ++ post.
Proof.
  induction s as [|c s IH]; simpl.
  - rewrite orb_false_r, startswith_spec. split.
    + intros [t Ht]. now exists "", t.
    + intros [pre [post H]]. destruct pre; [now exists post | discriminate].
  - rewrite orb_true_iff, startswith_spec, IH. split.
    + intros [[t Ht] | [pre [post H]]].
      * now exists "", t.
      * exists (String c pre), post. simpl. now rewrite H.
    + intros [pre [post H]]. destruct pre as [|a pre]; simpl in H.
      * left. now exists post.
      * right. injection H as _ H. now exists pre, post.
Qed.

Lemma lower_app (a b : string) : lower (a ++ b) = lower a ++ lower b.
Proof. induction a as [|c a IH]; simpl; [reflexivity | now rewrite IH]. Qed.

Lemma lower_app_inv (s a b : string) :
  lower s = a ++ b ->
  exists s1 s2, s = s1 ++ s2 /\ lower s1 = a /\ lower s2 = b.
Proof.
  revert s; induction a as [|c a IH]; intros s H; simpl in H.
  - now exists "", s.
  - destruct s as [|d s]; simpl in H; [discriminate|].
    injection H as Hc H. destruct (IH _ H) as [s1 [s2 [-> [H1 H2]]]].
    exists (String d s1), s2. simpl. now rewrite Hc, H1.
Qed.

Lemma isspace_lower_char (c : ascii) : isspace (lower_char c) = isspace c.
Proof.
  destruct c as [b0 b1 b2 b3 b4 b5 b6 b7].
  destruct b0, b1, b2, b3, b4, b5, b6, b7; reflexivity.
Qed.

Lemma no_space_app (a b : string) :
  no_space (a ++ b) = no_space a && no_space b.
Proof.
  induction a as [|c a IH]; simpl; [reflexivity|].
  now rewrite IH, andb_assoc.
Qed.

Lemma no_space_lower (s : string) : no_space (lower s) = no_space s.
Proof.
  induction s as [|c s IH]; simpl; [reflexivity|].
  now rewrite isspace_lower_char, IH.
Qed.

(** A substring of a string without whitespace has no whitespace. *)
Lemma no_space_str_in (sub s : string) :
  str_in sub s = true -> no_space s = true -> no_space sub = true.
Proof.
  rewrite str_in_spec. intros [pre [post ->]].
  rewrite !no_space_app, !andb_true_iff. tauto.
Qed.

(** [split] returns words without whitespace. *)
Lemma split_no_space (s : string) :
  Forall (fun w => no_space w = true) (split s).
Proof.
  induction s as [|c s IH]; simpl; [constructor|].
  destruct (isspace c) eqn:Hc; [exact IH|].
  destruct s as [|c' s'].
  - constructor; [simpl; now rewrite Hc | constructor].
  - destruct (isspace c') eqn:Hc'.
    + constructor; [simpl; now rewrite Hc | exact IH].
    + destruct (split (String c' s')) as [|w ws].
      * constructor; [simpl; now rewrite Hc | constructor].
      * inversion IH as [|? ? Hw Hws]; subst.
        constructor; [simpl; now rewrite Hc, Hw | exact Hws].
Qed.

(** A string without whitespace does not contain the space character. *)
Lemma no_space_no_blank (s : string) :
  no_space s = true -> str_in " " s = false.
Proof.
  induction s as [|c s IH]; [reflexivity|].
  cbn [no_space]. rewrite andb_true_iff. intros [Hc Hs].
  change (str_in " " (String c s))
    with (startswith " " (String c s) || str_in " " s).
  rewrite (IH Hs), orb_false_r.
  change (startswith " " (String c s)) with (Ascii.eqb " " c && true).
  rewrite andb_true_r.
  destruct (Ascii.eqb_spec " " c) as [<-|]; [discriminate | reflexivity].
Qed.

(** The word loop finds an index only at a word containing the keyword. *)
Lemma find_word_index_found (keyword : string) (words : list string) (i : Z) :
  (0 <= i)%Z ->
  (0 <= find_word_index keyword words i)%Z ->
  exists word, In word words /\ str_in keyword (lower word) = true.
Proof.
  revert i; induction words as [|w ws IH]; intros i Hi H; simpl in H.
  - lia.
  - destruct (str_in keyword (lower w)) eqn:E.
    + exists w. split; [now left | exact E].
    + destruct (IH (i + 1)%Z ltac:(lia) H) as [word [Hin Hw]].
      exists word. split; [now right | exact Hw].
Qed.

Lemma find_word_index_missing (keyword : string) (words : list string) (i : Z) :
  (forall word, In word words -> str_in keyword (lower word) = false) ->
  find_word_index keyword words i = (-1)%Z.
Proof.
  revert i; induction words as [|w ws IH]; intros i H; simpl; [reflexivity|].
  rewrite (H w (or_introl eq_refl)). apply IH. intros word Hin.
  apply H. now right.
Qed.

(* ================================================================== *)
(** ** The lexicon filter *)
(* ================================================================== *)

(** What it takes for a detection to be in the filter's output. *)
Lemma in_fast_lexicon_filter (text : string) (d : Detection) :
  In d (_fast_lexicon_filter text) <->
  exists category config keyword,
    In (category, config) BIAS_CATEGORIES /\
    In keyword (cfg_keywords config) /\
    str_in keyword (lower text) = true /\
    (0 <= find_word_index keyword (split text) 0)%Z /\
    d = mkDetection category keyword (find (lower text) keyword)
          (join " " (slice_list (split text)
                       (Z.max 0 (find_word_index keyword (split text) 0 - 2))
                       (Z.min (Z.of_nat (List.length (split text)))
                              (find_word_index keyword (split text) 0 + 3))))
          (cfg_weight config) (hit_confidence (lower text) category config)
          (cfg_description config).
Proof.
  unfold _fast_lexicon_filter. rewrite in_flat_map. split.
  - intros [[category config] [Hentry Hd]].
    unfold scan_category in Hd. rewrite in_flat_map in Hd.
    destruct Hd as [keyword [Hkw Hd]]. simpl in Hkw, Hd.
    unfold scan_keyword in Hd.
    destruct (str_in keyword (lower text)) eqn:Hin; [|contradiction].
    destruct (0 <=? find_word_index keyword (split text) 0)%Z eqn:Hidx;
      [|contradiction].
    destruct Hd as [Hd|[]]. apply Z.leb_le in Hidx.
    exists category, config, keyword. now repeat split.
  - intros [category [config [keyword [Hentry [Hkw [Hin [Hidx ->]]]]]]].
    exists (category, config). split; [exact Hentry|].
    unfold scan_category. rewrite in_flat_map. exists keyword.
    split; [exact Hkw|]. simpl. unfold scan_keyword. rewrite Hin.
    apply Z.leb_le in Hidx. rewrite Hidx. now left.
Qed.

Lemma str_in_list_In (x : string) (l : list string) :
  str_in_list x l = true <-> In x l.
Proof.
  unfold str_in_list. rewrite existsb_exists. split.
  - intros [y [Hy E]]. apply String.eqb_eq in E. now subst.
  - intros H. exists x. split; [exact H | apply String.eqb_refl].
Qed.

Lemma str_in_lower_occurs (phrase text : string) :
  lower phrase = phrase ->
  str_in phrase (lower text) = true <-> occurs_ci phrase text.
Proof.
  intros Hlow. rewrite str_in_spec. unfold occurs_ci. rewrite Hlow. split.
  - intros [a [b H]].
    destruct (lower_app_inv _ _ _ H) as [pre [rest [-> [Ha Hrest]]]].
    destruct (lower_app_inv _ _ _ Hrest) as [mid [post [-> [Hmid Hb]]]].
    now exists pre, mid, post.
  - intros [pre [mid [post [-> Hmid]]]].
    exists (lower pre), (lower post). now rewrite !lower_app, Hmid.
Qed.

Lemma existsb_contexts_occurs (contexts : list string) (text : string) :
  Forall (fun ctx => lower ctx = ctx) contexts ->
  existsb (fun ctx => str_in ctx (lower text)) contexts = true <->
  exists ctx, In ctx contexts /\ occurs_ci ctx text.
Proof.
  intros Hall. rewrite Forall_forall in Hall. rewrite existsb_exists. split.
  - intros [ctx [Hin H]]. exists ctx. split; [exact Hin|].
    now apply str_in_lower_occurs; [apply Hall|].
  - intros [ctx [Hin H]]. exists ctx. split; [exact Hin|].
    now apply str_in_lower_occurs; [apply Hall|].
Qed.

(** In the table, the two categories of [context_categories] carry the
    contexts [contexts_of] returns, all of them in lower case. *)
Lemma table_contexts (category : string) (config : Config) :
  In (category, config) BIAS_CATEGORIES ->
  str_in_list category context_categories = true ->
  cfg_contexts config = Some (contexts_of category) /\
  Forall (fun ctx => lower ctx = ctx) (contexts_of category).
Proof.
  intros Hin Hcat. simpl in Hin.
  repeat (destruct Hin as [Hin|Hin];
          [injection Hin as <- <-;
           first [discriminate Hcat
                 | split; [reflexivity | repeat constructor]]|]).
  contradiction.
Qed.

Lemma hit_confidence_contexts (text_lower category : string) (config : Config)
    (contexts : list string) :
  cfg_contexts config = Some contexts ->
  str_in_list category context_categories = true ->
  hit_confidence text_lower category config =
  if existsb (fun ctx => str_in ctx text_lower) contexts then 1.0 else 0.7.
Proof.
  intros Hc Hcat. unfold hit_confidence. rewrite Hc.
  fold context_categories. now rewrite Hcat.
Qed.

Lemma hit_confidence_other (text_lower category : string) (config : Config) :
  str_in_list category context_categories = false ->
  hit_confidence text_lower category config = 0.9.
Proof.
  intros Hcat. unfold hit_confidence. fold context_categories.
  rewrite Hcat. now destruct (cfg_contexts config).
Qed.

(** C3: a detection of gender_bias or age_bias has confidence 1.0 when a
    phrase of the category's context list occurs in the text up to case
    and 0.7 when none does; a detection of any other category has
    confidence 0.9. *)
Theorem lexicon_filter_confidence (text : string) (d : Detection) :
  In d (_fast_lexicon_filter text) ->
  let context_present :=
    exists ctx, In ctx (contexts_of (det_category d)) /\ occurs_ci ctx text in
  (In (det_category d) context_categories ->
     (context_present -> det_confidence d = 1.0) /\
     (~ context_present -> det_confidence d = 0.7)) /\
  (~ In (det_category d) context_categories -> det_confidence d = 0.9).
Proof.
  intros Hd context_present. subst context_present.
  apply in_fast_lexicon_filter in Hd.
  destruct Hd as [category [config [keyword [Hentry [_ [_ [_ ->]]]]]]].
  cbn [det_category det_confidence]. split.
  - intros Hcat. apply str_in_list_In in Hcat.
    destruct (table_contexts _ _ Hentry Hcat) as [Hctx Hlow].
    rewrite (hit_confidence_contexts _ _ _ _ Hctx Hcat).
    pose proof (existsb_contexts_occurs _ text Hlow) as Hiff.
    destruct (existsb _ (contexts_of category)).
    + split; [reflexivity|]. intros Hno. exfalso. apply Hno.
      now apply Hiff.
    + split; [|reflexivity]. intros Hyes. apply Hiff in Hyes. discriminate.
  - intros Hcat. apply hit_confidence_other.
    destruct (str_in_list category context_categories) eqn:E; [|reflexivity].
    apply str_in_list_In in E. contradiction.
Qed.

Lemma lexicon_filter_confidence_witness :
  In women_detection (_fast_lexicon_filter "We prefer women here") /\
  det_confidence women_detection = 1.0.
Proof.
  assert (Hin : In women_detection (_fast_lexicon_filter "We prefer women here"))
    by (vm_compute; left; reflexivity).
  split; [exact Hin|].
  apply (lexicon_filter_confidence "We prefer women here" women_detection Hin).
  - left; reflexivity.
  - exists "prefer". split; [vm_compute; tauto|].
    exists "We ", "prefer", " women here". split; reflexivity.
Defined.

Lemma multi_word_keywords_table :
  List.filter (str_in " ") (flat_map (fun entry => cfg_keywords (snd entry)) BIAS_CATEGORIES)
  = multi_word_keywords.
Proof. reflexivity. Qed.

(** C10: the keyword of a detection lies inside one word of
    [text.split()], so it contains no space, and the multi-word entries
    of the table are never the keyword of a detection. *)
Theorem lexicon_filter_no_multi_word (text : string) (d : Detection) :
  In d (_fast_lexicon_filter text) ->
  (exists word, In word (split text) /\
                str_in (det_keyword d) (lower word) = true) /\
  str_in " " (det_keyword d) = false /\
  ~ In (det_keyword d) multi_word_keywords.
Proof.
  intros Hd. apply in_fast_lexicon_filter in Hd.
  destruct Hd as [category [config [keyword [_ [_ [_ [Hidx ->]]]]]]].
  cbn [det_keyword].
  destruct (find_word_index_found keyword (split text) 0 ltac:(lia) Hidx)
    as [word [Hword Hin]].
  assert (Hns : no_space keyword = true).
  { apply (no_space_str_in keyword (lower word) Hin).
    rewrite no_space_lower.
    pose proof (split_no_space text) as Hall. rewrite Forall_forall in Hall.
    now apply Hall. }
  assert (Hblank : str_in " " keyword = false) by now apply no_space_no_blank.
  split; [now exists word|]. split; [exact Hblank|].
  intros Hmulti. simpl in Hmulti.
  repeat (destruct Hmulti as [<-|Hmulti]; [discriminate Hblank|]).
  contradiction.
Qed.

Lemma lexicon_filter_no_multi_word_witness :
  In stupid_detection (_fast_lexicon_filter "This is a stupid idea") /\
  str_in " " (det_keyword stupid_detection) = false.
Proof.
  assert (Hin : In stupid_detection (_fast_lexicon_filter "This is a stupid idea"))
    by (vm_compute; left; reflexivity).
  split; [exact Hin|].
  exact (proj1 (proj2
    (lexicon_filter_no_multi_word "This is a stupid idea" stupid_detection Hin))).
Defined.

(** *** Keywords without whitespace are found whenever they occur *)

Lemma first_after_word (s : string) : s = first_word s ++ after_word s.
Proof.
  induction s as [|c s IH]; [reflexivity|]. simpl.
  destruct (isspace c); [reflexivity|]. simpl. now rewrite <- IH.
Qed.

Lemma after_word_space (s : string) :
  after_word s = "" \/ exists c r, after_word s = String c r /\ isspace c = true.
Proof.
  induction s as [|c s IH]; [now left|]. simpl.
  destruct (isspace c) eqn:Hc; [|exact IH]. right. now exists c, s.
Qed.

Lemma split_first_word (c : ascii) (s : string) :
  isspace c = false ->
  split (String c s)
  = first_word (String c s) :: split (after_word (String c s)).
Proof.
  revert c; induction s as [|c' s IH]; intros c Hc.
  - simpl. now rewrite Hc.
  - specialize (IH c').
    change (split (String c (String c' s)))
      with (if isspace c then split (String c' s)
            else if isspace c' then String c "" :: split (String c' s)
                 else match split (String c' s) with
                      | w :: ws => String c w :: ws
                      | [] => [String c ""]
                      end).
    cbn [first_word after_word]. rewrite Hc.
    destruct (isspace c') eqn:Hc'; [reflexivity|].
    rewrite (IH eq_refl). cbn [first_word after_word]. now rewrite Hc'.
Qed.

(** A prefix without whitespace ends before the first whitespace. *)
Lemma startswith_before_space (kw a b : string) :
  startswith kw (a ++ b) = true ->
  no_space kw = true ->
  b = "" \/ (exists c r, b = String c r /\ isspace c = true) ->
  startswith kw a = true.
Proof.
  revert kw; induction a as [|x a IH]; intros kw H Hns Hb.
  - destruct kw as [|k kw]; [reflexivity|]. simpl in H, Hns.
    destruct Hb as [-> | [c [r [-> Hc]]]]; [discriminate|].
    apply andb_true_iff in H. destruct H as [E _].
    apply Ascii.eqb_eq in E. subst c. now rewrite Hc in Hns.
  - destruct kw as [|k kw]; [reflexivity|]. simpl in H, Hns |- *.
    apply andb_true_iff in H. destruct H as [E H].
    apply andb_true_iff in Hns. destruct Hns as [_ Hns].
    rewrite E. now apply IH.
Qed.

Lemma str_in_cons (kw : string) (c : ascii) (s : string) :
  str_in kw s = true -> str_in kw (String c s) = true.
Proof. intros H. cbn [str_in]. rewrite H. apply orb_true_r. Qed.

Lemma str_in_startswith (kw s : string) :
  startswith kw s = true -> str_in kw s = true.
Proof. intros H. destruct s; cbn [str_in]; now rewrite H. Qed.

(** A non-empty keyword without whitespace that occurs in the
    lower-cased text occurs in the lower-cased form of one of its
    words. *)
Lemma keyword_in_some_word (kw s : string) :
  kw <> "" -> no_space kw = true ->
  str_in kw (lower s) = true ->
  exists word, In word (split s) /\ str_in kw (lower word) = true.
Proof.
  intros Hne Hns. induction s as [|c s IH]; intros H.
  - destruct kw; [contradiction | discriminate].
  - assert (Hcases : startswith kw (lower (String c s)) = true
                     \/ str_in kw (lower s) = true).
    { cbn [lower str_in] in H. apply orb_true_iff in H. exact H. }
    destruct (isspace c) eqn:Hc.
    + (* a leading whitespace character belongs to no word *)
      assert (Hsplit : split (String c s) = split s)
        by (cbn [split]; now rewrite Hc).
      rewrite Hsplit. apply IH.
      destruct Hcases as [Hpre | Hin]; [|exact Hin].
      destruct kw as [|k kw]; [contradiction|].
      cbn [lower startswith] in Hpre. cbn [no_space] in Hns.
      apply andb_true_iff in Hpre. destruct Hpre as [E _].
      apply Ascii.eqb_eq in E. subst k.
      now rewrite isspace_lower_char, Hc in Hns.
    + rewrite (split_first_word c s Hc).
      destruct Hcases as [Hpre | Hin].
      * (* the occurrence starts the text: it lies in the first word *)
        exists (first_word (String c s)). split; [now left|].
        apply str_in_startswith.
        apply startswith_before_space
          with (b := lower (after_word (String c s))); [|exact Hns|].
        -- now rewrite <- lower_app, <- first_after_word.
        -- destruct (after_word_space (String c s)) as [-> | [c2 [r [-> Hc2]]]];
             [now left|].
           right. exists (lower_char c2), (lower r).
           split; [reflexivity | now rewrite isspace_lower_char].
      * (* the occurrence is further on *)
        destruct (IH Hin) as [word [Hword Hkw]].
        destruct s as [|c' s']; [contradiction|].
        cbn [first_word after_word]. rewrite Hc.
        destruct (isspace c') eqn:Hc'.
        -- exists word. split; [now right | exact Hkw].
        -- rewrite (split_first_word c' s' Hc') in Hword.
           cbn [first_word after_word] in Hword |- *. rewrite Hc' in Hword.
           destruct Hword as [<- | Hword].
           ++ exists (String c (String c' (first_word s'))).
              split; [now left|]. cbn [lower]. apply str_in_cons. exact Hkw.
           ++ exists word. split; [now right | exact Hkw].
Qed.

Lemma find_word_index_some (keyword : string) (words : list string) (i : Z) :
  (0 <= i)%Z ->
  (exists word, In word words /\ str_in keyword (lower word) = true) ->
  (0 <= find_word_index keyword words i)%Z.
Proof.
  revert i; induction words as [|w ws IH]; intros i Hi [word [Hin Hkw]].
  - contradiction.
  - simpl. destruct (str_in keyword (lower w)) eqn:E; [exact Hi|].
    apply IH; [lia|]. destruct Hin as [-> | Hin]; [congruence|].
    now exists word.
Qed.

(** The loop body yields one detection on a hit inside a word and none
    otherwise. *)
Lemma scan_keyword_pair (text_lower : string) (words : list string)
    (category : string) (config : Config) (keyword : string) (d : Detection) :
  In d (scan_keyword text_lower words category config keyword) ->
  det_category d = category /\ det_keyword d = keyword.
Proof.
  unfold scan_keyword.
  destruct (str_in keyword text_lower); [|contradiction].
  destruct (0 <=? find_word_index keyword words 0)%Z; [|contradiction].
  intros [<- | []]. now split.
Qed.

Lemma filter_none {A} (p : A -> bool) (l : list A) :
  (forall x, In x l -> p x = false) -> List.filter p l = [].
Proof.
  induction l as [|a l IH]; intros H; [reflexivity|]. simpl.
  rewrite (H a (or_introl eq_refl)). apply IH. intros x Hx. apply H. now right.
Qed.

(** In a [flat_map] over a duplicate-free list where only [x0]
    contributes elements satisfying [p], filtering by [p] keeps the
    contribution of [x0]. *)
Lemma filter_flat_map_single {A B} (p : B -> bool) (f : A -> list B)
    (l : list A) (x0 : A) :
  NoDup l -> In x0 l ->
  (forall x, In x l -> x <> x0 -> forall y, In y (f x) -> p y = false) ->
  List.filter p (flat_map f l) = List.filter p (f x0).
Proof.
  induction l as [|a l IH]; intros Hnd Hin Hother; [contradiction|].
  inversion Hnd as [|? ? Hnotin Hnd']; subst.
  cbn [flat_map]. rewrite filter_app. destruct Hin as [-> | Hin].
  - rewrite (filter_none p (flat_map f l)); [apply app_nil_r|].
    intros y Hy. apply in_flat_map in Hy. destruct Hy as [x [Hx Hy]].
    apply (Hother x); [now right | | exact Hy].
    intros ->. contradiction.
  - rewrite (filter_none p (f a)).
    + apply IH; [exact Hnd' | exact Hin |].
      intros x Hx. apply Hother. now right.
    + intros y Hy. apply (Hother a); [now left | | exact Hy].
      intros ->. contradiction.
Qed.

Lemma table_no_duplicates :
  NoDup (map fst BIAS_CATEGORIES) /\
  Forall (fun entry => NoDup (cfg_keywords (snd entry))) BIAS_CATEGORIES.
Proof.
  assert (Hdec : forall l : list string,
            (fix nodupb (l : list string) : bool :=
               match l with
               | [] => true
               | x :: l' => negb (str_in_list x l') && nodupb l'
               end) l = true -> NoDup l).
  { induction l as [|x l IH]; intros H; [constructor|].
    apply andb_true_iff in H. destruct H as [Hx Hl].
    constructor; [|now apply IH].
    intros Hin. apply str_in_list_In in Hin. now rewrite Hin in Hx. }
  split; [now apply Hdec|].
  repeat (apply Forall_cons; [now apply Hdec|]). apply Forall_nil.
Qed.

(** X5: the positive half of C9: for a keyword of the table without
    whitespace, the filter returns exactly one detection of that
    category and keyword when the keyword occurs in the lower-cased
    text, and none when it does not. *)
Lemma lexicon_filter_single_word (text category keyword : string)
    (config : Config) :
  In (category, config) BIAS_CATEGORIES ->
  In keyword (cfg_keywords config) ->
  no_space keyword = true ->
  pair_count category keyword (_fast_lexicon_filter text)
  = if str_in keyword (lower text) then 1%nat else 0%nat.
Proof.
  intros Hentry Hkw Hns.
  destruct table_no_duplicates as [Hcats Hkws].
  assert (Hne : keyword <> "").
  { intros ->. revert Hentry Hkw. simpl.
    intros Hentry.
    repeat (destruct Hentry as [Hentry|Hentry];
            [injection Hentry as <- <-; simpl;
             intros Hkw; repeat (destruct Hkw as [Hkw|Hkw]; [discriminate|]);
             contradiction|]).
    contradiction. }
  unfold pair_count, _fast_lexicon_filter.
  rewrite (filter_flat_map_single _ _ _ (category, config)).
  - unfold scan_category. cbn [fst snd].
    rewrite (filter_flat_map_single _ _ _ keyword).
    + unfold scan_keyword.
      destruct (str_in keyword (lower text)) eqn:Hin; [|reflexivity].
      assert (Hidx : (0 <= find_word_index keyword (split text) 0)%Z).
      { apply find_word_index_some; [lia|].
        now apply keyword_in_some_word. }
      apply Z.leb_le in Hidx. rewrite Hidx. cbn [List.filter].
      unfold is_pair. cbn [det_category det_keyword].
      now rewrite !String.eqb_refl.
    + rewrite Forall_forall in Hkws. exact (Hkws _ Hentry).
    + exact Hkw.
    + intros kw' _ Hdiff d Hd. apply scan_keyword_pair in Hd.
      destruct Hd as [_ Hk]. unfold is_pair. rewrite Hk.
      apply String.eqb_neq in Hdiff. rewrite Hdiff. apply andb_false_r.
  - apply (NoDup_map_inv fst). exact Hcats.
  - exact Hentry.
  - intros [cat' cfg'] Hin' Hdiff d Hd.
    unfold scan_category in Hd. apply in_flat_map in Hd.
    destruct Hd as [kw' [_ Hd]]. apply scan_keyword_pair in Hd.
    destruct Hd as [Hc _]. cbn [fst] in Hc. unfold is_pair. rewrite Hc.
    destruct (String.eqb_spec cat' category) as [-> | ]; [|reflexivity].
    exfalso. apply Hdiff. f_equal.
    (* two entries of the same category are the same entry *)
    clear - Hin' Hentry. simpl in Hin', Hentry.
    repeat (destruct Hin' as [Hin'|Hin'];
            [injection Hin' as <- <-;
             repeat (destruct Hentry as [Hentry|Hentry];
                     [first [discriminate Hentry
                            | now injection Hentry as <-]|]);
             contradiction|]).
    contradiction.
Qed.

(** C9, evaluated where it fails: the keyword "as expected" of
    confirmation_bias occurs in the text, and the filter returns no
    detection. *)
Theorem lexicon_filter_misses_multi_word :
  let text := "The results were as expected" in
  (exists config, In ("confirmation_bias", config) BIAS_CATEGORIES /\
                  In "as expected" (cfg_keywords config)) /\
  str_in "as expected" (lower text) = true /\
  _fast_lexicon_filter text = [].
Proof.
  cbv zeta. split; [|split; reflexivity].
  eexists. split; [do 7 right; left; reflexivity | left; reflexivity].
Qed.

(* ================================================================== *)
(** ** Score fusion *)
(* ================================================================== *)

Local Open Scope Q_scope.

Lemma fold_left_weighted_sum (detections : list Detection) (acc : Q) :
  fold_left (fun acc d => acc + det_weight d * det_confidence d) detections acc
  == acc + weighted_sum detections.
Proof.
  revert acc; induction detections as [|d l IH]; intros acc; simpl.
  - lra.
  - rewrite IH. lra.
Qed.

Lemma total_weight_weighted_sum (detections : list Detection) :
  total_weight detections == weighted_sum detections.
Proof. unfold total_weight. rewrite fold_left_weighted_sum. lra. Qed.

Lemma weighted_sum_nonneg (detections : list Detection) :
  Forall detection_in_range detections -> 0 <= weighted_sum detections.
Proof.
  induction 1 as [|d l [[Hw _] [Hc _]] _ IH]; simpl; [lra|].
  pose proof (Qmult_le_0_compat _ _ Hw Hc). lra.
Qed.

Lemma list_len_pos {A} (x : A) (l : list A) : 0 < list_len (x :: l).
Proof.
  unfold list_len. change 0 with (inject_Z 0). rewrite <- Zlt_Qlt.
  simpl List.length. lia.
Qed.

Lemma Qmin_cases (a b : Q) :
  Qmin a b <= a /\ Qmin a b <= b /\ (Qmin a b == a \/ Qmin a b == b).
Proof.
  split; [apply Q.le_min_l|]. split; [apply Q.le_min_r|].
  destruct (Q.min_dec a b); [now left | now right].
Qed.

(** Whatever the arguments, the score is the weighted combination
    clamped from above by 1. *)
Lemma overall_bias_score_clamped (detections : list Detection)
    (ml_biased : bool) (ml_confidence : Q) :
  _calculate_overall_bias_score detections ml_biased ml_confidence
  == Qmin (0.7 * lexicon_component detections
           + 0.3 * ml_component ml_biased ml_confidence) 1.
Proof.
  unfold _calculate_overall_bias_score, lexicon_component, ml_component.
  destruct detections as [|d l]; cbn [nonempty negb andb].
  - destruct ml_biased; cbn [negb].
    + apply Q.min_compat; lra.
    + transitivity (0.7 * 0 + 0.3 * 0); [lra|].
      symmetry. apply Q.min_l. lra.
  - apply Q.min_compat; [|lra].
    rewrite (Q.min_comm _ 1.0).
    assert (E : Qmin 1.0 (total_weight (d :: l) / list_len (d :: l))
                == Qmin 1 (weighted_sum (d :: l) / list_len (d :: l))).
    { apply Q.min_compat; [lra|]. now rewrite total_weight_weighted_sum. }
    rewrite E. destruct ml_biased; lra.
Qed.

Lemma lexicon_component_range (detections : list Detection) :
  Forall detection_in_range detections ->
  0 <= lexicon_component detections <= 1.
Proof.
  intros H. unfold lexicon_component. destruct detections as [|d l]; [lra|].
  pose proof (weighted_sum_nonneg _ H) as Hs.
  pose proof (list_len_pos d l) as Hn.
  assert (Hm : 0 <= weighted_sum (d :: l) / list_len (d :: l)).
  { apply Qle_shift_div_l; [exact Hn | lra]. }
  destruct (Qmin_cases 1 (weighted_sum (d :: l) / list_len (d :: l)))
    as [H1 [H2 [E|E]]]; rewrite E in *; lra.
Qed.

(** C1: for detections and a classifier confidence within their ranges,
    the score is 0.7 x lexicon_component + 0.3 x ml_component and lies
    in [0, 1]. *)
Theorem overall_bias_score_formula (detections : list Detection)
    (ml_biased : bool) (ml_confidence : Q) :
  Forall detection_in_range detections ->
  0 <= ml_confidence <= 1 ->
  _calculate_overall_bias_score detections ml_biased ml_confidence
  == 0.7 * lexicon_component detections
     + 0.3 * ml_component ml_biased ml_confidence
  /\ 0 <= _calculate_overall_bias_score detections ml_biased ml_confidence <= 1.
Proof.
  intros Hd Hml.
  pose proof (lexicon_component_range _ Hd) as Hlex.
  assert (Hm : 0 <= ml_component ml_biased ml_confidence <= 1)
    by (unfold ml_component; destruct ml_biased; lra).
  assert (E : _calculate_overall_bias_score detections ml_biased ml_confidence
              == 0.7 * lexicon_component detections
                 + 0.3 * ml_component ml_biased ml_confidence).
  { rewrite overall_bias_score_clamped. apply Q.min_l. lra. }
  split; [exact E|]. rewrite E. lra.
Qed.

(** Every detection of the lexicon filter is within range. *)
Lemma lexicon_filter_in_range (text : string) :
  Forall detection_in_range (_fast_lexicon_filter text).
Proof.
  apply Forall_forall. intros d Hd. apply in_fast_lexicon_filter in Hd.
  destruct Hd as [category [config [keyword [Hentry [_ [_ [_ ->]]]]]]].
  unfold detection_in_range. cbn [det_weight det_confidence].
  assert (Hw : 0 <= cfg_weight config <= 1).
  { simpl in Hentry.
    repeat (destruct Hentry as [Hentry|Hentry];
            [injection Hentry as <- <-; simpl; lra|]).
    contradiction. }
  split; [exact Hw|].
  unfold hit_confidence.
  destruct (cfg_contexts config);
    repeat match goal with |- context [if ?b then _ else _] => destruct b end;
    lra.
Qed.

Lemma overall_bias_score_formula_witness :
  _calculate_overall_bias_score (_fast_lexicon_filter "women") true 0.8
  == 0.7 * lexicon_component (_fast_lexicon_filter "women")
     + 0.3 * ml_component true 0.8
  /\ 0 <= _calculate_overall_bias_score (_fast_lexicon_filter "women") true 0.8 <= 1.
Proof.
  apply (overall_bias_score_formula (_fast_lexicon_filter "women") true 0.8).
  - apply lexicon_filter_in_range.
  - split; [discriminate | discriminate].
Defined.

(* ================================================================== *)
(** ** The classifier and the endpoint *)
(* ================================================================== *)

Lemma Qmax_cases (a b : Q) :
  a <= Qmax a b /\ b <= Qmax a b /\ (Qmax a b = a \/ Qmax a b = b).
Proof.
  split; [apply Q.le_max_l|]. split; [apply Q.le_max_r|].
  unfold Qmax, GenericMinMax.gmax. destruct (a ?= b); auto.
Qed.

Lemma fold_left_Qmax (l : list Q) (a : Q) :
  (fold_left Qmax l a = a \/ In (fold_left Qmax l a) l) /\
  a <= fold_left Qmax l a /\
  (forall x, In x l -> x <= fold_left Qmax l a).
Proof.
  revert a; induction l as [|y l IH]; intros a; simpl.
  - split; [now left|]. split; [apply Qle_refl | contradiction].
  - destruct (IH (Qmax a y)) as [Hin [Hge Hall]].
    destruct (Qmax_cases a y) as [Ha [Hy Hc]].
    split; [|split].
    + destruct Hin as [-> | Hin]; [|now right; right].
      destruct Hc as [-> | ->]; [now left | now right; left].
    + now apply Qle_trans with (Qmax a y).
    + intros x [E | Hx]; [subst x | now apply Hall].
      now apply Qle_trans with (Qmax a y).
Qed.

Lemma max_default_spec (l : list Q) (d : Q) :
  (l = [] /\ max_default l d = d
   \/ In (max_default l d) l) /\
  (forall x, In x l -> x <= max_default l d).
Proof.
  destruct l as [|a l]; simpl.
  - split; [now left | contradiction].
  - destruct (fold_left_Qmax l a) as [Hin [Hge Hall]]. split.
    + right. destruct Hin as [-> | Hin]; [now left | now right].
    + intros x [<- | Hx]; [exact Hge | now apply Hall].
Qed.

Lemma nonempty_true {A} (l : list A) : nonempty l = true <-> l <> [].
Proof. destruct l; simpl; split; congruence. Qed.

(** The verdict built by [fused_result] is the fused verdict. *)
Lemma fused_result_verdict (text : string) (ml : bool * Q) (elapsed_ms : Q) :
  fused_verdict (_fast_lexicon_filter text) ml (fused_result text ml elapsed_ms).
Proof.
  unfold fused_verdict, fused_result. cbn [is_biased confidence].
  set (dets := _fast_lexicon_filter text).
  set (m := max_default (map det_confidence dets) 0.0).
  destruct (max_default_spec (map det_confidence dets) 0.0) as [Hin Hall].
  fold m in Hin, Hall.
  destruct (Qmax_cases m (snd ml)) as [Hm [Hml Hc]].
  split; [|split; [|split]].
  - now rewrite orb_true_iff, nonempty_true.
  - intros d Hd. apply Qle_trans with m; [|exact Hm].
    apply Hall. now apply in_map.
  - exact Hml.
  - destruct Hc as [Hc | Hc]; [|now left]. right. rewrite Hc.
    destruct Hin as [[Hnil Hd] | Hin].
    + right. split; [|exact Hd]. now destruct dets.
    + left. apply in_map_iff in Hin. destruct Hin as [d [Hd Hin]].
      now exists d.
Qed.

Section ClassifierFacts.

Variable Pipeline : Type.
Variable new_pipeline : option Pipeline.
Variable fit : Pipeline -> Pipeline * bool.
Variable predict : Pipeline -> string -> option (list Z).
Variable predict_proba : Pipeline -> string -> option (list (list Q)).

Local Abbreviation classify :=
  (_sentence_level_classification new_pipeline fit predict predict_proba).
Local Abbreviation verdict :=
  (classifier_verdict new_pipeline fit predict predict_proba).
Local Abbreviation after_call := (pipeline_after_call new_pipeline fit).
Local Abbreviation detect :=
  (detect_realtime_bias new_pipeline fit predict predict_proba).
Local Abbreviation detect_with :=
  (detect_realtime_bias_with (Pipeline := Pipeline)).

Ltac case_classifier text :=
  repeat (match goal with
          | |- context [fit ?p] => destruct (fit p) as [? []]
          | |- context [predict ?p text] =>
              destruct (predict p text) as [[|? ?]|]
          | |- context [predict_proba ?p text] =>
              destruct (predict_proba p text) as [[|[|? ?] ?]|]
          end; cbn).

(** The classifier never raises; it reads of the world only the global
    pipeline, and writes only that global and the call log. *)
Lemma classification_frame (text : string) (w : World Pipeline) :
  classify text w =
  (inr (verdict (bias_pipeline w) text),
   mkWorld (after_call (bias_pipeline w)) (clock w) (ticks w)
           (calls w ++ [SentenceClassifier text])).
Proof.
  destruct w as [g c t cs].
  unfold classifier_verdict, pipeline_after_call,
    _sentence_level_classification, classification_body,
    _load_bias_pipeline, _train_bias_classifier, try_except, bind,
    log_call, get_bias_pipeline, set_bias_pipeline, lift_option, ret, raise.
  cbn. destruct g as [p|]; cbn.
  - case_classifier text; reflexivity.
  - destruct new_pipeline as [p|]; cbn; [|reflexivity].
    case_classifier text; reflexivity.
Qed.

Lemma after_call_fitted (p : Pipeline) : after_call (Some p) = Some p.
Proof. reflexivity. Qed.

(** The endpoint on a text that is empty once stripped. *)
Lemma detect_blank (payload : TextPayload) (w : World Pipeline) :
  strip (text payload) = "" ->
  detect payload w =
  (inr clean_result,
   mkWorld (bias_pipeline w) (clock w) (S (ticks w)) (calls w)).
Proof.
  intros H. unfold detect_realtime_bias, detect_realtime_bias_with,
    realtime_pipeline, try_except, bind, time_time.
  cbn. now rewrite H.
Qed.

(** The endpoint on any other text. *)
Lemma detect_text (payload : TextPayload) (w : World Pipeline) :
  strip (text payload) <> "" ->
  detect payload w =
  (inr (fused_result (strip (text payload))
          (verdict (bias_pipeline w) (strip (text payload)))
          ((clock w (S (ticks w)) - clock w (ticks w)) * 1000)),
   mkWorld (after_call (bias_pipeline w)) (clock w) (S (S (ticks w)))
           ((calls w ++ [LexiconFilter (strip (text payload))])
            ++ [SentenceClassifier (strip (text payload))])).
Proof.
  intros H. apply String.eqb_neq in H.
  unfold detect_realtime_bias, detect_realtime_bias_with,
    realtime_pipeline, call_fast_lexicon_filter.
  unfold try_except at 1. unfold bind at 1. unfold time_time at 1.
  cbn [fst snd]. rewrite H.
  unfold bind at 1. unfold bind at 1. unfold log_call at 1. cbn [ret].
  unfold bind at 1. rewrite classification_frame.
  reflexivity.
Qed.

(** C4: on the empty string the endpoint returns the clean result (not
    biased, confidence and score 0.0, no category, empty highlighted
    text), logs no call to the filter or the classifier and leaves the
    global pipeline as it was. *)
Theorem detect_empty_string (session : option string) (w : World Pipeline) :
  fst (detect (mkTextPayload "" session) w)
  = inr (mkBiasResult false 0.0 [] "" 0.0 0.0) /\
  calls (snd (detect (mkTextPayload "" session) w)) = calls w /\
  bias_pipeline (snd (detect (mkTextPayload "" session) w)) = bias_pipeline w.
Proof.
  rewrite (detect_blank (mkTextPayload "" session) w eq_refl).
  repeat split.
Qed.

(** C2, amended: on a text that is not empty once stripped, the result
    is biased exactly when the filter found a detection in the stripped
    text or the classifier flagged it, and its confidence is the largest
    of the detection confidences and the classifier's confidence. *)
Theorem detect_fused_verdict (payload : TextPayload) (w : World Pipeline) :
  strip (text payload) <> "" ->
  exists r,
    fst (detect payload w) = inr r /\
    fused_verdict (_fast_lexicon_filter (strip (text payload)))
                  (verdict (bias_pipeline w) (strip (text payload))) r.
Proof.
  intros H. rewrite (detect_text payload w H). eexists. split; [reflexivity|].
  apply fused_result_verdict.
Qed.

(** C6: the endpoint never raises, and a failing classifier does not
    stop the scoring.  First, on every payload and in every world the
    endpoint returns a result: the clean result on a text that is empty
    once stripped, and otherwise the lexicon detections fused with the
    value of the classifier's [try] block, or with (False, 0.0) when
    that block raises.  Second, that block raises, and the classifier
    answers (False, 0.0), whenever the pipeline cannot be built or
    trained, or one of its two predictions raises.  Third, the
    classifier itself returns (False, 0.0) whenever its [try] block
    raises and that block's value otherwise.  Fourth, an exception of
    the endpoint's own [try] block is answered by the neutral result
    that carries the payload's text unchanged. *)
Theorem detect_never_raises :
  (forall payload w,
     let t := strip (text payload) in
     fst (detect payload w)
     = inr (if String.eqb t "" then mkBiasResult false 0.0 [] "" 0.0 0.0
            else
              match classification_body new_pipeline fit predict
                      predict_proba t
                      (mkWorld (bias_pipeline w) (clock w) (S (ticks w))
                               ((calls w ++ [LexiconFilter t])
                                ++ [SentenceClassifier t])) with
              | (inr ml, w') =>
                  fused_result t ml
                    ((clock w' (ticks w') - clock w (ticks w)) * 1000)
              | (inl _, w') =>
                  fused_result t (false, 0.0)
                    ((clock w' (ticks w') - clock w (ticks w)) * 1000)
              end)) /\
  (forall text w,
     match loaded_pipeline new_pipeline fit (bias_pipeline w) with
     | Some p => predict p text = None \/ predict_proba p text = None
     | None => True
     end ->
     (exists e,
        fst (classification_body new_pipeline fit predict predict_proba
               text w) = inl e) /\
     fst (classify text w) = inr (false, 0.0)) /\
  (forall text w,
     fst (classify text w)
     = inr match fst (classification_body new_pipeline fit predict
                        predict_proba text
                        (mkWorld (bias_pipeline w) (clock w) (ticks w)
                                 (calls w ++ [SentenceClassifier text]))) with
           | inr v => v
           | inl _ => (false, 0.0)
           end) /\
  (forall body payload w,
     fst (detect_with body payload w)
     = match body payload (clock w (ticks w))
               (mkWorld (bias_pipeline w) (clock w) (S (ticks w)) (calls w)) with
       | (inr r, _) => inr r
       | (inl _, w') =>
           inr (mkBiasResult false 0.0 [] (text payload) 0.0
                  ((clock w' (ticks w') - clock w (ticks w)) * 1000))
       end).
Proof.
  split; [|split; [|split]].
  - intros payload w t. subst t.
    unfold detect_realtime_bias, detect_realtime_bias_with,
      realtime_pipeline, call_fast_lexicon_filter.
    unfold try_except at 1. unfold bind at 1. unfold time_time at 1.
    cbn [fst snd].
    destruct (String.eqb (strip (text payload)) "") eqn:H; [reflexivity|].
    unfold bind at 1. unfold bind at 1. unfold log_call at 1. cbn [ret].
    unfold bind at 1.
    unfold _sentence_level_classification, try_except, log_call.
    unfold bind at 1.
    cbn [fst snd bias_pipeline clock ticks calls].
    destruct (classification_body _ _ _ _ _ _) as [[e|ml] w'];
      reflexivity.
  - intros text w H. destruct w as [g c t cs].
    cbn [bias_pipeline] in H. revert H.
    unfold loaded_pipeline, _sentence_level_classification,
      classification_body, _load_bias_pipeline, _train_bias_classifier,
      try_except, bind, log_call, get_bias_pipeline, set_bias_pipeline,
      lift_option, index0, py_max, ret, raise.
    cbn. destruct g as [p|]; cbn.
    + intros [H|H]; rewrite H; cbn.
      * split; [now eexists | reflexivity].
      * destruct (predict p text); cbn; split; (now eexists) || reflexivity.
    + destruct new_pipeline as [p0|]; cbn;
        [|intros _; split; [now eexists | reflexivity]].
      destruct (fit p0) as [p1 []]; cbn;
        [|intros _; split; [now eexists | reflexivity]].
      intros [H|H]; rewrite H; cbn.
      * split; [now eexists | reflexivity].
      * destruct (predict p1 text); cbn; split; (now eexists) || reflexivity.
  - intros text w.
    unfold _sentence_level_classification, try_except, bind, log_call.
    cbn [fst snd].
    destruct (classification_body _ _ _ _ _ _) as [[e|v] w']; reflexivity.
  - intros body payload w.
    unfold detect_realtime_bias_with, try_except, bind, time_time,
      fallback_result.
    cbn [fst snd].
    destruct (body _ _ _) as [[e|r] w']; reflexivity.
Qed.

(** C7, amended: with a pipeline already in the global, two successive
    calls on the same payload return results that agree on is_biased,
    confidence, categories, highlighted_text and bias_score. *)
Theorem detect_twice_same_verdict (payload : TextPayload)
    (w : World Pipeline) (p : Pipeline) :
  bias_pipeline w = Some p ->
  exists r1 r2,
    fst (detect payload w) = inr r1 /\
    fst (detect payload (snd (detect payload w))) = inr r2 /\
    same_verdict r1 r2.
Proof.
  intros Hp. destruct (string_dec (strip (text payload)) "") as [H|H].
  - rewrite (detect_blank payload w H). cbn [fst snd].
    rewrite (detect_blank payload _ H).
    exists clean_result, clean_result. repeat split.
  - rewrite (detect_text payload w H). cbn [fst snd].
    rewrite (detect_text payload _ H). cbn [fst snd bias_pipeline].
    rewrite Hp, after_call_fitted.
    do 2 eexists. split; [reflexivity|]. split; [reflexivity|].
    repeat split.
Qed.

End ClassifierFacts.

(** A text of one space is not empty; the endpoint answers with
    confidence 0.0 while the classifier's confidence on it is 0.5. *)
Lemma detect_fused_verdict_blank_counterexample :
  text blank_payload <> "" /\
  exists r,
    fst (detect_even blank_payload fresh_world) = inr r /\
    classifier_verdict even_new_pipeline even_fit even_predict
      even_predict_proba (bias_pipeline fresh_world)
      (strip (text blank_payload)) = (false, 0.5) /\
    confidence r = 0.0 /\
    ~ fused_verdict (_fast_lexicon_filter (strip (text blank_payload)))
        (classifier_verdict even_new_pipeline even_fit even_predict
           even_predict_proba (bias_pipeline fresh_world)
           (strip (text blank_payload))) r.
Proof.
  split; [discriminate|].
  exists clean_result. split; [reflexivity|]. split; [reflexivity|].
  split; [reflexivity|].
  intros [_ [_ [Hle _]]]. vm_compute in Hle. now apply Hle.
Qed.

Lemma detect_fused_verdict_witness :
  strip (text stupid_payload) <> "" /\
  exists r,
    fst (detect_even stupid_payload fresh_world) = inr r /\
    fused_verdict (_fast_lexicon_filter (strip (text stupid_payload)))
      (classifier_verdict even_new_pipeline even_fit even_predict
         even_predict_proba (bias_pipeline fresh_world)
         (strip (text stupid_payload))) r.
Proof.
  assert (H : strip (text stupid_payload) <> "") by discriminate.
  split; [exact H|].
  exact (detect_fused_verdict unit even_new_pipeline even_fit even_predict
           even_predict_proba stupid_payload fresh_world H).
Defined.

(** With a classifier whose [predict] raises, "This is a stupid idea"
    is still scored from the lexicon: the classifier answers
    (False, 0.0) and the endpoint returns the pejorative detection with
    score 0.7 * 0.9. *)
Lemma detect_never_raises_witness :
  loaded_pipeline even_new_pipeline even_fit (bias_pipeline fresh_world)
  = Some tt /\
  raising_predict tt "This is a stupid idea" = None /\
  fst (_sentence_level_classification even_new_pipeline even_fit
         raising_predict even_predict_proba "This is a stupid idea"
         fresh_world) = inr (false, 0.0) /\
  exists r,
    fst (detect_realtime_bias even_new_pipeline even_fit raising_predict
           even_predict_proba stupid_payload fresh_world) = inr r /\
    is_biased r = true /\
    confidence r == 0.9 /\
    categories r = [category_of_detection stupid_detection] /\
    bias_score r == 0.63.
Proof.
  destruct (detect_never_raises unit even_new_pipeline even_fit
              raising_predict even_predict_proba) as [H1 [H2 _]].
  split; [reflexivity|]. split; [reflexivity|]. split.
  - exact (proj2 (H2 "This is a stupid idea" fresh_world
                    (or_introl eq_refl))).
  - eexists. split; [exact (H1 stupid_payload fresh_world)|].
    vm_compute. repeat split; discriminate.
Defined.

(** Two successive calls on "hello" with a fitted classifier: the
    measured times are 1000 and 5000 milliseconds. *)
Lemma detect_twice_counterexample :
  bias_pipeline fitted_world = Some tt /\
  exists r1 r2,
    fst (detect_even hello_payload fitted_world) = inr r1 /\
    fst (detect_even hello_payload
           (snd (detect_even hello_payload fitted_world))) = inr r2 /\
    processing_time_ms r1 == 1000 /\
    processing_time_ms r2 == 5000 /\
    r1 <> r2.
Proof.
  split; [reflexivity|].
  do 2 eexists. split; [vm_compute; reflexivity|].
  split; [vm_compute; reflexivity|].
  split; [reflexivity|]. split; [reflexivity|]. discriminate.
Qed.

Lemma detect_twice_same_verdict_witness :
  bias_pipeline fitted_world = Some tt /\
  exists r1 r2,
    fst (detect_even stupid_payload fitted_world) = inr r1 /\
    fst (detect_even stupid_payload
           (snd (detect_even stupid_payload fitted_world))) = inr r2 /\
    same_verdict r1 r2.
Proof.
  split; [reflexivity|].
  exact (detect_twice_same_verdict unit even_new_pipeline even_fit
           even_predict even_predict_proba stupid_payload fitted_world tt
           eq_refl).
Defined.

(* ================================================================== *)
(** ** Highlighting *)
(* ================================================================== *)

(** On a text whose matched spans are apart and already in lower case,
    removing the markers gives the text back. *)
Lemma strip_markers_example :
  let text := "you are stupid, old boy" in
  strip_markers (_fast_lexicon_filter text)
    (_highlight_biased_words text (_fast_lexicon_filter text)) = text.
Proof. vm_compute. reflexivity. Qed.

(** C5, evaluated where it fails.  In "obviously" the keyword is hit by
    subjective and by confirmation_bias at offset 0; the second rewrite
    replaces the first nine characters of the first marker, whose rest
    stays in the text, and removing the markers does not give the input
    back.  Besides, the marker carries the keyword of the table, not the
    characters of the text, so "Stupid" and "stupid" are highlighted to
    the same string. *)
Theorem highlight_round_trip_fails :
  let text := "obviously" in
  let detections := _fast_lexicon_filter text in
  let highlighted := _highlight_biased_words text detections in
  map det_category detections = ["subjective"; "confirmation_bias"] /\
  map det_position detections = [0%Z; 0%Z] /\
  str_in "</span>le=" highlighted = true /\
  strip_markers detections highlighted <> text /\
  _highlight_biased_words "Stupid" (_fast_lexicon_filter "Stupid")
  = _highlight_biased_words "stupid" (_fast_lexicon_filter "stupid").
Proof.
  cbv zeta. split; [reflexivity|]. split; [reflexivity|].
  split; [vm_compute; reflexivity|].
  split; [vm_compute; discriminate | vm_compute; reflexivity].
Qed.

(* ================================================================== *)
(** ** The sentiment scorer *)
(* ================================================================== *)

Section SentimentFacts.

Variable Analyzer : Type.
Variable SentimentIntensityAnalyzer : option Analyzer.
Variable polarity_scores : Analyzer -> string -> option VaderScores.

Lemma classify_compound_cases (scores : VaderScores) :
  let c := compound scores in
  let r := classify_compound scores in
  (0.05 <= c -> label r = "POSITIVE" /\ score r = c) /\
  (c <= -0.05 -> label r = "NEGATIVE" /\ score r = Qabs c) /\
  (-0.05 < c /\ c < 0.05 -> label r = "NEUTRAL" /\ score r = 0.5).
Proof.
  cbv zeta. unfold classify_compound.
  destruct (Qle_bool 0.05 (compound scores)) eqn:Hpos.
  - apply Qle_bool_iff in Hpos. cbn [label score].
    repeat split; intros; lra.
  - assert (Hlt : compound scores < 0.05).
    { apply Qnot_le_lt. intros H. apply Qle_bool_iff in H. congruence. }
    destruct (Qle_bool (compound scores) (-0.05)) eqn:Hneg.
    + apply Qle_bool_iff in Hneg. cbn [label score].
      repeat split; intros; lra.
    + assert (Hgt : -0.05 < compound scores).
      { apply Qnot_le_lt. intros H. apply Qle_bool_iff in H. congruence. }
      cbn [label score]. repeat split; intros; lra.
Qed.

(** C8: when the analyzer is available and returns scores with compound
    value c, the label is POSITIVE with score c if c >= 0.05, NEGATIVE
    with score |c| if c <= -0.05, and NEUTRAL with score 0.5 otherwise. *)
Theorem analyze_sentiment_mapping (payload : TextPayload)
    (vader_analyzer : option Analyzer) (a : Analyzer) (scores : VaderScores) :
  fst (_load_vader_analyzer Analyzer SentimentIntensityAnalyzer vader_analyzer)
  = inr (Some a) ->
  polarity_scores a (text payload) = Some scores ->
  exists r,
    fst (analyze_sentiment Analyzer SentimentIntensityAnalyzer polarity_scores
           payload vader_analyzer) = inr r /\
    (0.05 <= compound scores -> label r = "POSITIVE" /\ score r = compound scores) /\
    (compound scores <= -0.05 ->
       label r = "NEGATIVE" /\ score r = Qabs (compound scores)) /\
    (-0.05 < compound scores /\ compound scores < 0.05 ->
       label r = "NEUTRAL" /\ score r = 0.5).
Proof.
  intros Hload Hscores. exists (classify_compound scores).
  split; [|apply classify_compound_cases].
  unfold analyze_sentiment, try_except, bind.
  destruct (_load_vader_analyzer _ _ vader_analyzer) as [[e|g] w'].
  - discriminate Hload.
  - cbn [fst] in Hload. injection Hload as ->. cbn. now rewrite Hscores.
Qed.

End SentimentFacts.

Lemma analyze_sentiment_mapping_witness :
  exists r,
    fst (analyze_sentiment unit fixed_analyzer fixed_polarity_scores
           hello_payload None) = inr r /\
    (0.05 <= 0.6 -> label r = "POSITIVE" /\ score r = 0.6) /\
    (0.6 <= -0.05 -> label r = "NEGATIVE" /\ score r = Qabs 0.6) /\
    (-0.05 < 0.6 /\ 0.6 < 0.05 -> label r = "NEUTRAL" /\ score r = 0.5).
Proof.
  exact (analyze_sentiment_mapping unit fixed_analyzer fixed_polarity_scores
           hello_payload None tt (mkVaderScores 0.0 0.4 0.6 0.6)
           eq_refl eq_refl).
Defined.

(* ================================================================== *)
(** ** More about the string primitives *)
(* ================================================================== *)

Local Open Scope string_scope.

Lemma take_app_length (p t : string) : take (String.length p) (p ++ t) = p.
Proof. induction p as [|c p IH]; simpl; [now destruct t | now rewrite IH]. Qed.

Lemma length_append (a b : string) :
  String.length (a ++ b) = (String.length a + String.length b)%nat.
Proof. induction a as [|c a IH]; simpl; [reflexivity | now rewrite IH]. Qed.

Lemma length_take (n : nat) (s : string) :
  String.length (take n s) = Nat.min n (String.length s).
Proof.
  revert s; induction n as [|n IH]; intros [|c s]; simpl; try reflexivity.
  now rewrite IH.
Qed.

Lemma length_drop (n : nat) (s : string) :
  String.length (drop n s) = (String.length s - n)%nat.
Proof.
  revert s; induction n as [|n IH]; intros [|c s]; simpl; try reflexivity.
  apply IH.
Qed.

Lemma take_drop (n : nat) (s : string) : take n s ++ drop n s = s.
Proof.
  revert s; induction n as [|n IH]; intros [|c s]; simpl; try reflexivity.
  now rewrite IH.
Qed.

Lemma take_take (n m : nat) (s : string) :
  (n <= m)%nat -> take n (take m s) = take n s.
Proof.
  revert m s; induction n as [|n IH]; intros m s H; [reflexivity|].
  destruct m as [|m]; [lia|]. destruct s as [|c s]; [reflexivity|].
  simpl. rewrite IH; [reflexivity | lia].
Qed.

Lemma take_app_le (n : nat) (a b : string) :
  (n <= String.length a)%nat -> take n (a ++ b) = take n a.
Proof.
  revert a; induction n as [|n IH]; intros a H; [reflexivity|].
  destruct a as [|c a]; simpl in H; [lia|].
  simpl. rewrite IH; [reflexivity | lia].
Qed.

Lemma startswith_length (p s : string) :
  startswith p s = true -> (String.length p <= String.length s)%nat.
Proof.
  rewrite startswith_spec. intros [t ->]. rewrite length_append. lia.
Qed.

Lemma startswith_take (p s : string) :
  startswith p s = true -> take (String.length p) s = p.
Proof. rewrite startswith_spec. intros [t ->]. apply take_app_length. Qed.

(** [find] returns the offset of the first occurrence. *)
Lemma find_from_spec (sub s : string) (i : Z) :
  str_in sub s = true ->
  exists k,
    find_from sub s i = (i + Z.of_nat k)%Z /\
    startswith sub (drop k s) = true /\
    (forall j, (j < k)%nat -> startswith sub (drop j s) = false) /\
    (k + String.length sub <= String.length s)%nat.
Proof.
  revert i; induction s as [|c s IH]; intros i H.
  - cbn [str_in] in H. rewrite orb_false_r in H.
    pose proof (startswith_length _ _ H) as Hl.
    exists O. cbn [find_from drop]. rewrite H.
    split; [lia|]. split; [reflexivity|].
    split; [intros j Hj; lia | simpl in *; lia].
  - cbn [find_from]. destruct (startswith sub (String c s)) eqn:Hs.
    + exists O. cbn [drop]. split; [lia|]. split; [exact Hs|].
      split; [intros j Hj; lia|]. apply startswith_length in Hs. lia.
    + cbn [str_in] in H. rewrite Hs in H. cbn [orb] in H.
      destruct (IH (i + 1)%Z H) as [k [Hf [Hk [Hfirst Hlen]]]].
      exists (S k). cbn [drop]. split; [rewrite Hf; lia|].
      split; [exact Hk|]. split.
      * intros [|j] Hj; [exact Hs|]. cbn [drop]. apply Hfirst. lia.
      * simpl. lia.
Qed.

Lemma find_from_absent (sub s : string) (i : Z) :
  str_in sub s = false -> find_from sub s i = (-1)%Z.
Proof.
  revert i; induction s as [|c s IH]; intros i H; cbn [str_in] in H;
    apply orb_false_iff in H; destruct H as [Hs H]; cbn [find_from];
    rewrite Hs; [reflexivity | now apply IH].
Qed.

(* ================================================================== *)
(** ** More about the lexicon filter *)
(* ================================================================== *)

(** X1: the position of a detection is the offset of the first occurrence
    of its keyword in the lower-cased text, the string the filter
    searches: it is not negative, the span lies within the lower-cased
    text, the characters of the lower-cased text at the span are the
    keyword, and the keyword does not occur there at a smaller offset.
    Nothing is said of the offsets of the text itself. *)
Theorem lexicon_filter_position (text : string) (d : Detection) :
  In d (_fast_lexicon_filter text) ->
  (0 <= det_position d)%Z /\
  (det_position d + len (det_keyword d) <= len (lower text))%Z /\
  take (String.length (det_keyword d))
       (drop (Z.to_nat (det_position d)) (lower text)) = det_keyword d /\
  (forall j, (j < Z.to_nat (det_position d))%nat ->
             startswith (det_keyword d) (drop j (lower text)) = false).
Proof.
  intros Hd. apply in_fast_lexicon_filter in Hd.
  destruct Hd as [category [config [keyword [_ [_ [Hin [_ ->]]]]]]].
  cbn [det_position det_keyword]. unfold find, len.
  destruct (find_from_spec keyword (lower text) 0 Hin)
    as [k [Hf [Hk [Hfirst Hlen]]]].
  rewrite Hf.
  replace (Z.to_nat (0 + Z.of_nat k)) with k by lia.
  split; [lia|]. split; [lia|]. split; [|exact Hfirst].
  now apply startswith_take.
Qed.

Lemma lexicon_filter_position_witness :
  In stupid_detection (_fast_lexicon_filter "This is a stupid idea") /\
  (0 <= 10)%Z /\ (10 + 6 <= 21)%Z.
Proof.
  assert (Hin : In stupid_detection (_fast_lexicon_filter "This is a stupid idea"))
    by (vm_compute; left; reflexivity).
  split; [exact Hin|].
  pose proof (lexicon_filter_position "This is a stupid idea"
                stupid_detection Hin) as [H0 [H1 _]].
  split; [exact H0 | exact H1].
Defined.

Lemma find_word_index_spec (keyword : string) (words : list string) (i : Z) :
  (0 <= find_word_index keyword words i)%Z -> (0 <= i)%Z ->
  exists k word,
    find_word_index keyword words i = (i + Z.of_nat k)%Z /\
    nth_error words k = Some word /\
    str_in keyword (lower word) = true.
Proof.
  revert i; induction words as [|w ws IH]; intros i H Hi; simpl in H |- *.
  - lia.
  - destruct (str_in keyword (lower w)) eqn:E.
    + exists O, w. split; [lia|]. now split.
    + destruct (IH (i + 1)%Z H ltac:(lia)) as [k [word [Hf [Hn Hw]]]].
      exists (S k), word. split; [rewrite Hf; lia|]. now split.
Qed.

Lemma append_assoc (a b c : string) : (a ++ b) ++ c = a ++ (b ++ c).
Proof. induction a as [|x a IH]; simpl; [reflexivity | now rewrite IH]. Qed.

Lemma append_empty_r (a : string) : a ++ "" = a.
Proof. induction a as [|x a IH]; simpl; [reflexivity | now rewrite IH]. Qed.

Lemma join_contains (sep word : string) (l : list string) :
  In word l -> exists pre post, join sep l = pre ++ word ++ post.
Proof.
  induction l as [|w ws IH]; intros Hin; [contradiction|].
  destruct Hin as [-> | Hin].
  - destruct ws as [|w' ws']; cbn [join].
    + exists "", "". simpl. now rewrite append_empty_r.
    + now exists "", (sep ++ join sep (w' :: ws')).
  - destruct (IH Hin) as [pre [post E]].
    destruct ws as [|w' ws']; [contradiction|].
    cbn [join] in E |- *. rewrite E.
    exists (w ++ sep ++ pre), post. now rewrite !append_assoc.
Qed.

(** [l[a:b]] for in-range bounds is a run of consecutive elements. *)
Lemma slice_list_middle {A} (l : list A) (a b : Z) :
  (0 <= a <= b)%Z -> (b <= Z.of_nat (List.length l))%Z ->
  slice_list l a b = firstn (Z.to_nat b - Z.to_nat a) (skipn (Z.to_nat a) l) /\
  l = (firstn (Z.to_nat a) l ++ slice_list l a b ++ skipn (Z.to_nat b) l)%list.
Proof.
  intros Hab Hb. unfold slice_list, clamp_index.
  destruct (a <? 0)%Z eqn:Ea; [apply Z.ltb_lt in Ea; lia|].
  destruct (b <? 0)%Z eqn:Eb; [apply Z.ltb_lt in Eb; lia|].
  replace (Z.to_nat (Z.min (Z.of_nat (List.length l)) (Z.max 0 a)))
    with (Z.to_nat a) by lia.
  replace (Z.to_nat (Z.min (Z.of_nat (List.length l)) (Z.max 0 b)))
    with (Z.to_nat b) by lia.
  split; [reflexivity|].
  rewrite <- (firstn_skipn (Z.to_nat a) l) at 1. f_equal.
  rewrite <- (firstn_skipn (Z.to_nat b - Z.to_nat a) (skipn (Z.to_nat a) l)) at 1.
  f_equal. rewrite skipn_skipn. f_equal. lia.
Qed.

(** X2: the context of a detection is made of one to five consecutive words
    of the text, one of which contains the keyword up to letter case; so
    the keyword occurs in the lower-cased context. *)
Theorem lexicon_filter_context (text : string) (d : Detection) :
  In d (_fast_lexicon_filter text) ->
  exists before ws after,
    split text = (before ++ ws ++ after)%list /\
    det_context d = join " " ws /\
    (1 <= List.length ws <= 5)%nat /\
    (exists word, In word ws /\ str_in (det_keyword d) (lower word) = true) /\
    str_in (det_keyword d) (lower (det_context d)) = true.
Proof.
  intros Hd. apply in_fast_lexicon_filter in Hd.
  destruct Hd as [category [config [keyword [_ [_ [_ [Hidx ->]]]]]]].
  cbn [det_context det_keyword].
  destruct (find_word_index_spec keyword (split text) 0 Hidx ltac:(lia))
    as [k [word [Hf [Hn Hw]]]].
  rewrite Hf. set (words := split text) in *.
  assert (Hk : (k < List.length words)%nat)
    by (apply nth_error_Some; congruence).
  set (a := Z.max 0 (0 + Z.of_nat k - 2)).
  set (b := Z.min (Z.of_nat (List.length words)) (0 + Z.of_nat k + 3)).
  assert (Hab : (0 <= a <= b)%Z) by lia.
  assert (Hb : (b <= Z.of_nat (List.length words))%Z) by lia.
  destruct (slice_list_middle words a b Hab Hb) as [Hslice Hsplit].
  assert (Hin : In word (slice_list words a b)).
  { rewrite Hslice. apply (nth_error_In _ (k - Z.to_nat a)).
    rewrite nth_error_firstn.
    replace (k - Z.to_nat a <? Z.to_nat b - Z.to_nat a)%nat with true
      by (symmetry; apply Nat.ltb_lt; lia).
    rewrite nth_error_skipn. replace (Z.to_nat a + (k - Z.to_nat a))%nat
      with k by lia. exact Hn. }
  exists (firstn (Z.to_nat a) words), (slice_list words a b),
    (skipn (Z.to_nat b) words).
  split; [exact Hsplit|]. split; [reflexivity|]. split.
  - rewrite Hslice, length_firstn, length_skipn. lia.
  - split; [now exists word|].
    destruct (join_contains " " word _ Hin) as [pre [post ->]].
    rewrite !lower_app. apply str_in_spec in Hw.
    destruct Hw as [p1 [p2 ->]]. apply str_in_spec.
    exists (lower pre ++ p1), (p2 ++ lower post).
    now rewrite !append_assoc.
Qed.

Lemma lexicon_filter_context_witness :
  In stupid_detection (_fast_lexicon_filter "This is a stupid idea") /\
  str_in (det_keyword stupid_detection)
         (lower (det_context stupid_detection)) = true.
Proof.
  assert (Hin : In stupid_detection (_fast_lexicon_filter "This is a stupid idea"))
    by (vm_compute; left; reflexivity).
  split; [exact Hin|].
  destruct (lexicon_filter_context "This is a stupid idea" stupid_detection Hin)
    as [before [ws [after [_ [_ [_ [_ H]]]]]]].
  exact H.
Defined.

Lemma lower_char_idem (c : ascii) : lower_char (lower_char c) = lower_char c.
Proof.
  destruct c as [b0 b1 b2 b3 b4 b5 b6 b7].
  destruct b0, b1, b2, b3, b4, b5, b6, b7; reflexivity.
Qed.

Lemma lower_idem (s : string) : lower (lower s) = lower s.
Proof.
  induction s as [|c s IH]; simpl; [reflexivity|].
  now rewrite lower_char_idem, IH.
Qed.

Lemma split_cons (c : ascii) (s : string) :
  split (String c s) =
  if isspace c then split s
  else match s with
       | EmptyString => [String c EmptyString]
       | String c' _ =>
           if isspace c' then String c EmptyString :: split s
           else match split s with
                | w :: ws => String c w :: ws
                | [] => [String c EmptyString]
                end
       end.
Proof. destruct s; reflexivity. Qed.

(** Splitting commutes with lower-casing. *)
Lemma split_lower (s : string) : split (lower s) = map lower (split s).
Proof.
  induction s as [|c s IH]; [reflexivity|].
  cbn [lower]. rewrite !split_cons, isspace_lower_char.
  destruct (isspace c); [exact IH|].
  destruct s as [|c' s']; [reflexivity|].
  cbn [lower] in IH |- *. rewrite isspace_lower_char.
  destruct (isspace c').
  - cbn [map]. now rewrite IH.
  - rewrite IH. now destruct (split (String c' s')).
Qed.

Lemma find_word_index_lower (keyword : string) (ws1 ws2 : list string) (i : Z) :
  map lower ws1 = map lower ws2 ->
  find_word_index keyword ws1 i = find_word_index keyword ws2 i.
Proof.
  revert ws2 i; induction ws1 as [|w1 ws1 IH]; intros [|w2 ws2] i H;
    try discriminate; [reflexivity|].
  cbn [map] in H. injection H as Hw Hws. cbn [find_word_index].
  rewrite Hw. destruct (str_in keyword (lower w2)); [reflexivity|].
  now apply IH.
Qed.

Lemma join_lower (ws : list string) :
  lower (join " " ws) = join " " (map lower ws).
Proof.
  induction ws as [|w ws IH]; [reflexivity|].
  destruct ws as [|w' ws']; [reflexivity|].
  cbn [join map] in IH |- *. rewrite !lower_app, IH. reflexivity.
Qed.

Lemma slice_list_map {A B} (f : A -> B) (l : list A) (a b : Z) :
  slice_list (map f l) a b = map f (slice_list l a b).
Proof.
  unfold slice_list. rewrite length_map.
  now rewrite skipn_map, firstn_map.
Qed.

Lemma map_flat_map_ext {A B C} (f : B -> C) (g1 g2 : A -> list B) (l : list A) :
  (forall x, In x l -> map f (g1 x) = map f (g2 x)) ->
  map f (flat_map g1 l) = map f (flat_map g2 l).
Proof.
  induction l as [|x l IH]; intros H; [reflexivity|].
  cbn [flat_map]. rewrite !map_app, (H x (or_introl eq_refl)), IH;
    [reflexivity|]. intros y Hy. apply H. now right.
Qed.

(** X3: the detections depend on the text only up to letter case: two texts
    with the same lower-cased form give the same categories, keywords,
    positions, weights and confidences, and contexts equal up to case. *)
Theorem lexicon_filter_case_insensitive (text1 text2 : string) :
  lower text1 = lower text2 ->
  map detection_key (_fast_lexicon_filter text1)
  = map detection_key (_fast_lexicon_filter text2).
Proof.
  intros H. unfold _fast_lexicon_filter. rewrite H.
  assert (Hw : map lower (split text1) = map lower (split text2))
    by now rewrite <- !split_lower, H.
  assert (Hlen : List.length (split text1) = List.length (split text2))
    by now rewrite <- (length_map lower (split text1)), Hw, length_map.
  apply map_flat_map_ext. intros [category config] _.
  unfold scan_category. cbn [fst snd].
  apply map_flat_map_ext. intros keyword _. unfold scan_keyword.
  destruct (str_in keyword (lower text2)); [|reflexivity].
  rewrite (find_word_index_lower keyword _ _ 0 Hw), Hlen.
  destruct (0 <=? find_word_index keyword (split text2) 0)%Z; [|reflexivity].
  cbn [map]. unfold detection_key. cbn [det_category det_keyword
    det_position det_context det_weight det_confidence det_description].
  now rewrite !join_lower, <- !slice_list_map, Hw.
Qed.

Lemma lexicon_filter_case_insensitive_witness :
  lower "A STUPID idea" = lower "a stupid IDEA" /\
  map detection_key (_fast_lexicon_filter "A STUPID idea")
  = map detection_key (_fast_lexicon_filter "a stupid IDEA").
Proof.
  split; [reflexivity|].
  apply (lexicon_filter_case_insensitive "A STUPID idea" "a stupid IDEA").
  reflexivity.
Defined.

Lemma lstrip_head (s : string) :
  lstrip s = "" \/ exists c r, lstrip s = String c r /\ isspace c = false.
Proof.
  induction s as [|c s IH]; [now left|]. cbn [lstrip].
  destruct (isspace c) eqn:Hc; [exact IH|]. right. now exists c, s.
Qed.

Lemma lstrip_empty_split (s : string) : lstrip s = "" -> split s = [].
Proof.
  induction s as [|c s IH]; [reflexivity|]. cbn [lstrip]. rewrite split_cons.
  destruct (isspace c); [exact IH | discriminate].
Qed.

Lemma strip_empty_split (s : string) : strip s = "" -> split s = [].
Proof.
  unfold strip. intros H. apply lstrip_empty_split.
  destruct (lstrip_head s) as [E | [c [r [E Hc]]]]; [exact E|].
  rewrite E in H. cbn [rstrip] in H. rewrite Hc in H.
  destruct (rstrip r); discriminate.
Qed.

Lemma lexicon_filter_no_words (text : string) :
  split text = [] -> _fast_lexicon_filter text = [].
Proof.
  intros H.
  destruct (_fast_lexicon_filter text) as [|d l] eqn:E; [reflexivity|].
  assert (Hd : In d (_fast_lexicon_filter text)) by (rewrite E; now left).
  apply in_fast_lexicon_filter in Hd.
  destruct Hd as [category [config [keyword [_ [_ [_ [Hidx _]]]]]]].
  rewrite H in Hidx. simpl in Hidx. lia.
Qed.

(** X4: a text that is empty or made of whitespace only gives no detection. *)
Theorem lexicon_filter_blank (text : string) :
  strip text = "" -> _fast_lexicon_filter text = [].
Proof.
  intros H. apply lexicon_filter_no_words.
  now apply strip_empty_split.
Qed.

Lemma lexicon_filter_blank_witness :
  strip "   " = "" /\ _fast_lexicon_filter "   " = [].
Proof.
  split; [reflexivity|].
  apply (lexicon_filter_blank "   "). reflexivity.
Defined.

(* ================================================================== *)
(** ** More about the score *)
(* ================================================================== *)

Local Open Scope Q_scope.

Lemma lexicon_component_le_1 (l : list Detection) : lexicon_component l <= 1.
Proof.
  unfold lexicon_component. destruct l; [lra | apply Q.le_min_l].
Qed.

(** X7: the classifier alone cannot push the score above 0.3, and the
    lexicon alone cannot push it above 0.7. *)
Theorem overall_bias_score_shares (detections : list Detection)
    (ml_biased : bool) (ml_confidence : Q) :
  ml_confidence <= 1 ->
  (0.3 < _calculate_overall_bias_score detections ml_biased ml_confidence ->
   detections <> []) /\
  (0.7 < _calculate_overall_bias_score detections ml_biased ml_confidence ->
   ml_biased = true).
Proof.
  intros Hc.
  pose proof (overall_bias_score_clamped detections ml_biased ml_confidence) as E.
  pose proof (lexicon_component_le_1 detections) as Hlex.
  destruct (Qmin_cases (0.7 * lexicon_component detections
                        + 0.3 * ml_component ml_biased ml_confidence) 1)
    as [Hm _].
  split.
  - intros Hs Hnil. rewrite E in Hs. clear E. subst detections.
    unfold lexicon_component, ml_component in *.
    set (m := Qmin _ 1) in *. destruct ml_biased; lra.
  - intros Hs. rewrite E in Hs. clear E. destruct ml_biased; [reflexivity|].
    unfold ml_component in *. set (m := Qmin _ 1) in *. lra.
Qed.

Lemma overall_bias_score_shares_witness :
  0.8 <= 1 /\
  (0.3 < _calculate_overall_bias_score [women_detection] true 0.8 ->
   [women_detection] <> []) /\
  (0.7 < _calculate_overall_bias_score [women_detection] true 0.8 ->
   true = true).
Proof.
  assert (H : 0.8 <= 1) by discriminate.
  split; [exact H|].
  exact (overall_bias_score_shares [women_detection] true 0.8 H).
Defined.

Lemma weighted_sum_floor (l : list Detection) (m : Q) :
  Forall (fun d => m <= det_weight d * det_confidence d) l ->
  m * list_len l <= weighted_sum l.
Proof.
  induction 1 as [|d l Hd _ IH].
  - unfold list_len. cbn [List.length Z.of_nat weighted_sum fold_right].
    change (inject_Z 0) with 0. lra.
  - assert (E : list_len (d :: l) == 1 + list_len l).
    { unfold list_len. cbn [List.length]. rewrite Nat2Z.inj_succ.
      unfold Z.succ. rewrite inject_Z_plus. change (inject_Z 1) with 1.
      lra. }
    cbn [weighted_sum fold_right]. fold (weighted_sum l). rewrite E. lra.
Qed.

Lemma lexicon_filter_product_floor (text : string) :
  Forall (fun d => 0.36 <= det_weight d * det_confidence d)
         (_fast_lexicon_filter text).
Proof.
  apply Forall_forall. intros d Hd. apply in_fast_lexicon_filter in Hd.
  destruct Hd as [category [config [keyword [Hentry [_ [_ [_ ->]]]]]]].
  cbn [det_weight det_confidence]. simpl in Hentry.
  repeat (destruct Hentry as [Hentry|Hentry];
          [injection Hentry as <- <-; unfold hit_confidence;
           cbn [cfg_contexts cfg_weight str_in_list existsb String.eqb
                Ascii.eqb Bool.eqb orb andb];
           repeat match goal with
                  | |- context [if ?b then _ else _] => destruct b
                  end; vm_compute; discriminate|]).
  contradiction.
Qed.

(** X8: whenever the lexicon filter finds something in the text, the score
    is at least 0.252, whatever the classifier says with a non-negative
    confidence. *)
Theorem lexicon_hit_score_floor (text : string) (ml_biased : bool)
    (ml_confidence : Q) :
  _fast_lexicon_filter text <> [] ->
  0 <= ml_confidence ->
  0.252 <= _calculate_overall_bias_score (_fast_lexicon_filter text)
             ml_biased ml_confidence.
Proof.
  intros Hne Hc. rewrite overall_bias_score_clamped.
  pose proof (lexicon_filter_product_floor text) as Hfloor.
  destruct (_fast_lexicon_filter text) as [|d l]; [contradiction|].
  pose proof (weighted_sum_floor _ _ Hfloor) as Hsum.
  pose proof (list_len_pos d l) as Hn.
  assert (Hmean : 0.36 <= weighted_sum (d :: l) / list_len (d :: l))
    by (apply Qle_shift_div_l; [exact Hn | exact Hsum]).
  assert (Hlex : 0.36 <= lexicon_component (d :: l)).
  { unfold lexicon_component. apply Q.min_glb; [lra | exact Hmean]. }
  assert (Hml : 0 <= ml_component ml_biased ml_confidence)
    by (unfold ml_component; destruct ml_biased; lra).
  apply Q.min_glb; lra.
Qed.

Lemma lexicon_hit_score_floor_witness :
  _fast_lexicon_filter "an amazing idea" <> [] /\ 0 <= 0.5 /\
  0.252 <= _calculate_overall_bias_score
             (_fast_lexicon_filter "an amazing idea") false 0.5.
Proof.
  assert (H1 : _fast_lexicon_filter "an amazing idea" <> [])
    by (vm_compute; discriminate).
  assert (H2 : 0 <= 0.5) by discriminate.
  split; [exact H1|]. split; [exact H2|].
  exact (lexicon_hit_score_floor "an amazing idea" false 0.5 H1 H2).
Defined.

(* ================================================================== *)
(** ** More about the highlighting *)
(* ================================================================== *)

Local Open Scope string_scope.

Lemma in_insert_desc (x y : BiasPosition) (l : list BiasPosition) :
  In x (insert_desc y l) <-> x = y \/ In x l.
Proof.
  induction l as [|z l IH]; simpl.
  - intuition congruence.
  - destruct (bp_start z <=? bp_start y)%Z; simpl; rewrite ?IH;
      intuition congruence.
Qed.

Lemma in_sort_desc (x : BiasPosition) (l : list BiasPosition) :
  In x (sort_desc l) <-> In x l.
Proof.
  induction l as [|y l IH]; simpl; [reflexivity|].
  rewrite in_insert_desc, IH. intuition congruence.
Qed.

Lemma apply_highlight_prefix (n : nat) (h : string) (b : BiasPosition) :
  (Z.of_nat n <= bp_start b)%Z -> (n <= String.length h)%nat ->
  take n (apply_highlight h b) = take n h /\
  (n <= String.length (apply_highlight h b))%nat.
Proof.
  intros Hs Hn. unfold apply_highlight, slice_to, clamp_index, len.
  destruct (bp_start b <? 0)%Z eqn:E; [apply Z.ltb_lt in E; lia|].
  set (k := Z.to_nat (Z.min (Z.of_nat (String.length h)) (Z.max 0 (bp_start b)))).
  assert (Hk : (n <= k <= String.length h)%nat) by (subst k; lia).
  assert (Hlen : String.length (take k h) = k)
    by (rewrite length_take; lia).
  split.
  - rewrite take_app_le by lia. apply take_take. lia.
  - rewrite length_append. lia.
Qed.

Lemma fold_highlight_prefix (n : nat) (bs : list BiasPosition) (h : string) :
  (forall b, In b bs -> (Z.of_nat n <= bp_start b)%Z) ->
  (n <= String.length h)%nat ->
  take n (fold_left apply_highlight bs h) = take n h.
Proof.
  revert h; induction bs as [|b bs IH]; intros h Hall Hn; [reflexivity|].
  cbn [fold_left].
  destruct (apply_highlight_prefix n h b (Hall b (or_introl eq_refl)) Hn)
    as [Ht Hl].
  rewrite IH; [exact Ht | | exact Hl]. intros b' Hb'. apply Hall. now right.
Qed.

(** X9: whatever lies before the first highlighted span is left as it is:
    the highlighted text and the text agree on their first [n]
    characters when no detection starts before offset [n]. *)
Theorem highlight_keeps_prefix (text : string) (detections : list Detection)
    (n : nat) :
  (n <= String.length text)%nat ->
  (forall d, In d detections -> (Z.of_nat n <= det_position d)%Z) ->
  take n (_highlight_biased_words text detections) = take n text.
Proof.
  intros Hn Hall. unfold _highlight_biased_words.
  destruct detections as [|d0 l]; [reflexivity|].
  apply fold_highlight_prefix; [|exact Hn].
  intros b Hb. apply in_sort_desc, in_map_iff in Hb.
  destruct Hb as [d [<- Hd]]. cbn [to_bias_position bp_start].
  now apply Hall.
Qed.

Lemma highlight_keeps_prefix_witness :
  (10 <= String.length "This is a stupid idea")%nat /\
  take 10 (_highlight_biased_words "This is a stupid idea"
             (_fast_lexicon_filter "This is a stupid idea"))
  = take 10 "This is a stupid idea".
Proof.
  assert (Hn : (10 <= String.length "This is a stupid idea")%nat)
    by (vm_compute; lia).
  split; [exact Hn|].
  apply (highlight_keeps_prefix "This is a stupid idea"
           (_fast_lexicon_filter "This is a stupid idea") 10 Hn).
  intros d Hd. vm_compute in Hd. destruct Hd as [<- | []].
  vm_compute. discriminate.
Defined.

(** A rewrite replaces at most as many characters as the keyword has,
    so the string grows by the length of the two tags at least. *)
Lemma apply_highlight_length (h : string) (d : Detection) :
  (String.length h + String.length span_close
   <= String.length (apply_highlight h (to_bias_position d)))%nat.
Proof.
  unfold apply_highlight, highlight, slice_to, slice_from, clamp_index.
  cbn [to_bias_position bp_start bp_end bp_keyword bp_category bp_confidence].
  rewrite !length_append, length_take, length_drop. unfold len.
  set (n := String.length h). set (k := String.length (det_keyword d)).
  set (s := det_position d).
  destruct (s <? 0)%Z eqn:Es; destruct (s + Z.of_nat k <? 0)%Z eqn:Ee;
    try apply Z.ltb_lt in Es; try apply Z.ltb_ge in Es;
    try apply Z.ltb_lt in Ee; try apply Z.ltb_ge in Ee; lia.
Qed.

Lemma fold_highlight_length (ds : list BiasPosition) (h : string) :
  (forall b, In b ds -> exists d, b = to_bias_position d) ->
  (String.length h + List.length ds * String.length span_close
   <= String.length (fold_left apply_highlight ds h))%nat.
Proof.
  revert h; induction ds as [|b ds IH]; intros h Hall; cbn [fold_left].
  - simpl. lia.
  - destruct (Hall b (or_introl eq_refl)) as [d ->].
    pose proof (apply_highlight_length h d) as H1.
    pose proof (IH (apply_highlight h (to_bias_position d))
                  (fun b' Hb' => Hall b' (or_intror Hb'))) as H2.
    cbn [List.length]. lia.
Qed.

Lemma length_insert_desc (x : BiasPosition) (l : list BiasPosition) :
  List.length (insert_desc x l) = S (List.length l).
Proof.
  induction l as [|y l IH]; simpl; [reflexivity|].
  destruct (bp_start y <=? bp_start x)%Z; simpl; [reflexivity | now rewrite IH].
Qed.

Lemma length_sort_desc (l : list BiasPosition) :
  List.length (sort_desc l) = List.length l.
Proof.
  induction l as [|x l IH]; simpl; [reflexivity|].
  now rewrite length_insert_desc, IH.
Qed.

Lemma highlight_length_ge (text : string) (detections : list Detection) :
  (String.length text + 7 * List.length detections
   <= String.length (_highlight_biased_words text detections))%nat.
Proof.
  unfold _highlight_biased_words. destruct detections as [|d0 l];
    [simpl; lia|].
  pose proof (fold_highlight_length
                (sort_desc (map to_bias_position (d0 :: l))) text) as H.
  rewrite length_sort_desc, length_map in H.
  change (String.length span_close) with 7%nat in H.
  assert (Hall : forall b, In b (sort_desc (map to_bias_position (d0 :: l))) ->
                           exists d, b = to_bias_position d).
  { intros b Hb. apply in_sort_desc, in_map_iff in Hb.
    destruct Hb as [d [<- _]]. now exists d. }
  specialize (H Hall). lia.
Qed.

(** X10: highlighting never shortens the text: every detection adds at least
    the seven characters of the closing tag, so the highlighted text is
    the text itself exactly when there is no detection. *)
Theorem highlight_grows (text : string) (detections : list Detection) :
  (String.length text + 7 * List.length detections
   <= String.length (_highlight_biased_words text detections))%nat /\
  (_highlight_biased_words text detections = text <-> detections = []).
Proof.
  pose proof (highlight_length_ge text detections) as Hlen.
  split; [exact Hlen|]. split.
  - intros E. rewrite E in Hlen. destruct detections; [reflexivity|].
    cbn [List.length] in Hlen. lia.
  - intros ->. reflexivity.
Qed.

(* ================================================================== *)
(** ** More about the classifier and the endpoint *)
(* ================================================================== *)

Lemma rstrip_cons_nonspace (c : ascii) (r : string) :
  isspace c = false -> exists r', rstrip (String c r) = String c r'.
Proof.
  intros Hc. cbn [rstrip]. rewrite Hc.
  destruct (rstrip r) as [|x r'] eqn:E; [now exists "" | now exists (String x r')].
Qed.

Lemma rstrip_idem (s : string) : rstrip (rstrip s) = rstrip s.
Proof.
  assert (U : forall c t,
             rstrip (String c t) =
             match rstrip t with
             | EmptyString =>
                 if isspace c then EmptyString else String c EmptyString
             | r => String c r
             end) by reflexivity.
  induction s as [|c s IH]; [reflexivity|]. rewrite (U c s).
  destruct (rstrip s) as [|x r] eqn:E.
  - destruct (isspace c) eqn:Hc; [reflexivity|].
    rewrite U. cbn [rstrip]. now rewrite Hc.
  - now rewrite U, IH.
Qed.

(** Stripping a stripped text changes nothing. *)
Lemma strip_idem (s : string) : strip (strip s) = strip s.
Proof.
  unfold strip.
  destruct (lstrip_head s) as [E | [c [r [E Hc]]]]; rewrite E;
    [reflexivity|].
  destruct (rstrip_cons_nonspace c r Hc) as [r' Er]. rewrite Er.
  cbn [lstrip]. rewrite Hc, <- Er. apply rstrip_idem.
Qed.

Section EndpointFacts.

Variable Pipeline : Type.
Variable new_pipeline : option Pipeline.
Variable fit : Pipeline -> Pipeline * bool.
Variable predict : Pipeline -> string -> option (list Z).
Variable predict_proba : Pipeline -> string -> option (list (list Q)).

Local Abbreviation load := (_load_bias_pipeline new_pipeline fit).
Local Abbreviation verdict :=
  (classifier_verdict new_pipeline fit predict predict_proba).
Local Abbreviation after_call := (pipeline_after_call new_pipeline fit).
Local Abbreviation loaded := (loaded_pipeline new_pipeline fit).
Local Abbreviation detect :=
  (detect_realtime_bias new_pipeline fit predict predict_proba).
Local Abbreviation batch :=
  (batch_detect_bias new_pipeline fit predict predict_proba).
Local Abbreviation batch_from :=
  (batch_loop new_pipeline fit predict predict_proba).

(** On a standard output that encodes the pictographs the [print] calls
    do nothing to the loader's outcome. *)
Lemma load_bias_pipeline_printing_encodes (w : World Pipeline) :
  _load_bias_pipeline_printing new_pipeline fit true w = load w.
Proof.
  destruct w as [g c t cs].
  unfold _load_bias_pipeline_printing, _train_bias_classifier_printing,
    print_pictograph, _load_bias_pipeline, _train_bias_classifier,
    try_except, bind, get_bias_pipeline, set_bias_pipeline, lift_option,
    ret, raise.
  cbn. destruct g as [p|]; cbn; [reflexivity|].
  destruct new_pipeline as [p0|]; cbn; [|reflexivity].
  destruct (fit p0) as [p1 []]; reflexivity.
Qed.



(** The verdict of the classifier, case by case. *)
Lemma classifier_verdict_cases (g : option Pipeline) (text : string) :
  verdict g text =
  match loaded g with
  | Some p =>
      match predict p text, predict_proba p text with
      | Some (label :: _), Some ((x :: row) :: _) =>
          (negb (label =? 0)%Z, fold_left Qmax row x)
      | _, _ => (false, 0.0)
      end
  | None => (false, 0.0)
  end.
Proof.
  unfold classifier_verdict, loaded_pipeline,
    _sentence_level_classification, classification_body,
    _load_bias_pipeline, _train_bias_classifier, try_except, bind,
    log_call, get_bias_pipeline, set_bias_pipeline, lift_option, ret, raise.
  cbn. destruct g as [p|]; cbn.
  - destruct (predict p text) as [[|? ?]|];
      destruct (predict_proba p text) as [[|[|? ?] ?]|]; reflexivity.
  - destruct new_pipeline as [p|]; cbn; [|reflexivity].
    destruct (fit p) as [p1 []]; cbn; [|reflexivity].
    destruct (predict p1 text) as [[|? ?]|];
      destruct (predict_proba p1 text) as [[|[|? ?] ?]|]; reflexivity.
Qed.

(** X13: a text is flagged by the classifier only when the pipeline loaded
    and both predictions returned: the label is not 0 and the confidence
    is the largest entry of the first row of probabilities. *)
Theorem classifier_flag_sound (g : option Pipeline) (text : string) :
  fst (classifier_verdict new_pipeline fit predict predict_proba g text)
  = true ->
  exists p label labels row rows,
    loaded_pipeline new_pipeline fit g = Some p /\
    predict p text = Some (label :: labels) /\ label <> 0%Z /\
    predict_proba p text = Some (row :: rows) /\
    In (snd (verdict g text)) row /\
    (forall x, In x row -> (x <= snd (verdict g text))%Q).
Proof.
  rewrite classifier_verdict_cases.
  destruct (loaded g) as [p|] eqn:Hload; [|discriminate].
  destruct (predict p text) as [[|label labels]|] eqn:Hp;
    destruct (predict_proba p text) as [[|[|x row] rows]|] eqn:Hpp;
    cbn [fst snd]; try discriminate.
  intros Hl. exists p, label, labels, (x :: row), rows.
  split; [reflexivity|]. split; [exact Hp|]. split.
  - intros ->. discriminate.
  - split; [exact Hpp|].
    destruct (fold_left_Qmax row x) as [Hin [Hge Hall]]. split.
    + destruct Hin as [-> | Hin]; [now left | now right].
    + intros y [<- | Hy]; [exact Hge | now apply Hall].
Qed.

Lemma detect_returns (payload : TextPayload) (w : World Pipeline) :
  exists r, detect payload w = (inr r, snd (detect payload w)).
Proof.
  destruct (string_dec (strip (text payload)) "") as [H|H].
  - rewrite (detect_blank _ _ _ _ _ payload w H). now eexists.
  - rewrite (detect_text _ _ _ _ _ payload w H). now eexists.
Qed.

(** X14: the result is flagged exactly when it lists a category.  On a
    text that is empty once stripped the list is empty.  Otherwise it
    holds one entry per lexicon detection, in the filter's order; or,
    when the filter found nothing, the single entry "general_bias" if
    the classifier flagged the text (with the classifier's confidence,
    no keyword, the stripped text as context and weight 0.5) and no
    entry if it did not. *)
Theorem detect_flag_categories (payload : TextPayload) (w : World Pipeline) :
  exists r,
    fst (detect payload w) = inr r /\
    (is_biased r = true <-> categories r <> []) /\
    categories r
    = if String.eqb (strip (text payload)) "" then []
      else
        match _fast_lexicon_filter (strip (text payload)) with
        | [] =>
            if fst (classifier_verdict new_pipeline fit predict predict_proba
                      (bias_pipeline w) (strip (text payload)))
            then [mkCategoryEntry "general_bias"
                    "General biased language detected by ML classifier"
                    (snd (classifier_verdict new_pipeline fit predict
                            predict_proba (bias_pipeline w)
                            (strip (text payload))))
                    None (strip (text payload)) 0.5]
            else []
        | detections => map category_of_detection detections
        end.
Proof.
  destruct (string_dec (strip (text payload)) "") as [H|H].
  - rewrite (detect_blank _ _ _ _ _ payload w H). exists clean_result.
    split; [reflexivity|]. rewrite H. cbn. split; [|reflexivity].
    split; [discriminate | congruence].
  - rewrite (detect_text _ _ _ _ _ payload w H). eexists.
    split; [reflexivity|]. apply String.eqb_neq in H. rewrite H.
    unfold fused_result. cbn [is_biased categories].
    destruct (_fast_lexicon_filter (strip (text payload))) as [|d l];
      cbn [nonempty orb negb andb map app].
    + destruct (fst (verdict (bias_pipeline w) (strip (text payload))));
        cbn [andb]; split; try reflexivity; split; congruence.
    + rewrite andb_false_r, app_nil_r.
      split; [|reflexivity]. split; [discriminate | reflexivity].
Qed.

(** X15: a result that is not flagged has score 0.0, no category and the
    stripped text as highlighted text; and the highlighted text is the
    stripped text exactly when the lexicon filter found nothing, so a
    text flagged by the classifier alone is returned without markup. *)
Theorem detect_unbiased_clean (payload : TextPayload) (w : World Pipeline) :
  exists r,
    fst (detect payload w) = inr r /\
    (is_biased r = false ->
     bias_score r = 0.0 /\ categories r = [] /\
     highlighted_text r = strip (text payload)) /\
    (highlighted_text r = strip (text payload) <->
     _fast_lexicon_filter (strip (text payload)) = []).
Proof.
  destruct (string_dec (strip (text payload)) "") as [H|H].
  - rewrite (detect_blank _ _ _ _ _ payload w H). exists clean_result.
    split; [reflexivity|]. rewrite H. cbn [clean_result bias_score
      categories highlighted_text]. split; [now repeat split|].
    split; [|reflexivity]. intros _.
    now apply lexicon_filter_no_words, strip_empty_split.
  - rewrite (detect_text _ _ _ _ _ payload w H). eexists.
    split; [reflexivity|]. unfold fused_result.
    cbn [is_biased categories bias_score highlighted_text]. split.
    + intros Hb. apply orb_false_iff in Hb. destruct Hb as [Hd Hm].
      rewrite Hm.
      destruct (_fast_lexicon_filter (strip (text payload))); [|discriminate].
      now repeat split.
    + pose proof (highlight_length_ge (strip (text payload))
                    (_fast_lexicon_filter (strip (text payload)))) as Hlen.
      split; [|intros ->; reflexivity]. intros E. rewrite E in Hlen.
      destruct (_fast_lexicon_filter (strip (text payload)));
        [reflexivity | cbn [List.length] in Hlen; lia].
Qed.

(** X16: leading and trailing whitespace of the payload's text never changes
    the answer. *)
Theorem detect_strip_invariant (payload : TextPayload) (w : World Pipeline) :
  detect (mkTextPayload (strip (text payload)) (session_id payload)) w
  = detect payload w.
Proof.
  destruct (string_dec (strip (text payload)) "") as [H|H].
  - rewrite (detect_blank _ _ _ _ _ payload w H).
    apply detect_blank. cbn [text]. now rewrite strip_idem.
  - rewrite (detect_text _ _ _ _ _ payload w H).
    rewrite detect_text by (cbn [text]; now rewrite strip_idem).
    cbn [text]. now rewrite strip_idem.
Qed.

(** X17: what a call leaves behind: on a text that is empty once stripped it
    reads the clock once and calls no component; otherwise it reads the
    clock twice and calls the lexicon filter and then the classifier,
    once each, on the stripped text. *)
Theorem detect_trace (payload : TextPayload) (w : World Pipeline) :
  let stripped := strip (text payload) in
  let w' := snd (detect payload w) in
  if String.eqb stripped "" then
    calls w' = calls w /\ ticks w' = S (ticks w) /\
    bias_pipeline w' = bias_pipeline w
  else
    calls w' = (calls w ++ [LexiconFilter stripped; SentenceClassifier stripped])%list /\
    ticks w' = S (S (ticks w)) /\
    bias_pipeline w' = after_call (bias_pipeline w).
Proof.
  cbv zeta. destruct (String.eqb_spec (strip (text payload)) "") as [H|H].
  - rewrite (detect_blank _ _ _ _ _ payload w H). now repeat split.
  - rewrite (detect_text _ _ _ _ _ payload w H). cbn [snd calls ticks
      bias_pipeline]. rewrite <- app_assoc. now repeat split.
Qed.

(** With a pipeline in the global, the verdict does not depend on the
    rest of the world. *)
Lemma detect_same_pipeline (payload : TextPayload) (w1 w2 : World Pipeline)
    (p : Pipeline) :
  bias_pipeline w1 = Some p -> bias_pipeline w2 = Some p ->
  exists r1 r2,
    detect payload w1 = (inr r1, snd (detect payload w1)) /\
    detect payload w2 = (inr r2, snd (detect payload w2)) /\
    same_verdict r1 r2 /\
    bias_pipeline (snd (detect payload w1)) = Some p.
Proof.
  intros H1 H2. destruct (string_dec (strip (text payload)) "") as [H|H].
  - rewrite !(detect_blank _ _ _ _ _ payload _ H).
    exists clean_result, clean_result. cbn [snd bias_pipeline].
    now repeat split.
  - rewrite !(detect_text _ _ _ _ _ payload _ H). cbn [snd bias_pipeline].
    rewrite H1, H2. do 2 eexists. split; [reflexivity|].
    split; [reflexivity|]. now repeat split.
Qed.

Lemma batch_loop_acc (texts : list string) :
  forall (acc : list BatchEntry) (w : World Pipeline),
  exists rs,
    batch_from texts [] w = (inr rs, snd (batch_from texts [] w)) /\
    batch_from texts acc w = (inr (acc ++ rs)%list, snd (batch_from texts [] w)) /\
    map be_text rs = texts.
Proof.
  induction texts as [|t ts IH]; intros acc w.
  - exists []. cbn. now rewrite app_nil_r.
  - cbn [batch_loop]. unfold bind.
    destruct (detect_returns (mkTextPayload t None) w) as [r Hr].
    rewrite Hr. cbn [app].
    destruct (IH [mkBatchEntry t r] (snd (detect (mkTextPayload t None) w)))
      as [rs [H0 [H1 Hmap]]].
    destruct (IH (acc ++ [mkBatchEntry t r])%list
                 (snd (detect (mkTextPayload t None) w)))
      as [rs' [H0' [H1' _]]].
    assert (rs' = rs) by congruence. subst rs'.
    exists (mkBatchEntry t r :: rs). rewrite H1, H1'. cbn [snd].
    split; [reflexivity|]. split; [now rewrite <- app_assoc|].
    cbn [map be_text]. now rewrite Hmap.
Qed.

(** X18: the batch endpoint returns one entry per text, in the order of the
    texts and carrying each text as given, with [total_processed] their
    number; the first entry is the endpoint's answer to the first text
    and the others are the batch of the remaining texts run in the world
    the first call leaves. *)
Theorem batch_detect_bias_results (texts : list string) (w : World Pipeline) :
  exists results,
    fst (batch texts w) = inr (results, Z.of_nat (List.length texts)) /\
    map be_text results = texts /\
    match texts with
    | [] => results = []
    | t :: ts =>
        exists r rs,
          fst (detect (mkTextPayload t None) w) = inr r /\
          fst (batch ts (snd (detect (mkTextPayload t None) w)))
          = inr (rs, Z.of_nat (List.length ts)) /\
          results = mkBatchEntry t r :: rs
    end.
Proof.
  unfold batch_detect_bias, bind.
  destruct (batch_loop_acc texts [] w) as [results [H0 [_ Hmap]]].
  exists results. rewrite H0. cbn [fst].
  split; [reflexivity|]. split; [exact Hmap|].
  destruct texts as [|t ts].
  - cbn in H0. now injection H0 as <-.
  - cbn [batch_loop] in H0. unfold bind in H0.
    destruct (detect_returns (mkTextPayload t None) w) as [r Hr].
    rewrite Hr in H0 |- *. cbn [app fst] in H0 |- *.
    destruct (batch_loop_acc ts [mkBatchEntry t r]
                (snd (detect (mkTextPayload t None) w)))
      as [rs [H2 [H3 _]]].
    rewrite H3 in H0. injection H0 as <-.
    exists r, rs. split; [reflexivity|]. cbn [snd]. rewrite H2. now split.
Qed.

(** X19: once the pipeline is in the global, the texts of a batch do not
    influence one another: every entry has the verdict the endpoint
    gives to its text alone. *)
Theorem batch_detect_bias_independent (texts : list string)
    (w : World Pipeline) (p : Pipeline) :
  bias_pipeline w = Some p ->
  exists results,
    fst (batch texts w) = inr (results, Z.of_nat (List.length texts)) /\
    Forall (fun entry =>
              exists r,
                fst (detect (mkTextPayload (be_text entry) None) w) = inr r /\
                same_verdict (be_result entry) r) results.
Proof.
  intros Hp. unfold batch_detect_bias, bind.
  destruct (batch_loop_acc texts [] w) as [results [H0 _]].
  exists results. rewrite H0. cbn [fst]. split; [reflexivity|].
  assert (Hgen : forall ts w1 rs,
            bias_pipeline w1 = Some p ->
            batch_from ts [] w1 = (inr rs, snd (batch_from ts [] w1)) ->
            Forall (fun entry =>
                      exists r,
                        fst (detect (mkTextPayload (be_text entry) None) w)
                        = inr r /\
                        same_verdict (be_result entry) r) rs).
  { clear results H0. induction ts as [|t ts IH]; intros w1 rs Hw1 Hrs.
    - cbn in Hrs. injection Hrs as <-. constructor.
    - cbn [batch_loop] in Hrs. unfold bind in Hrs.
      destruct (detect_same_pipeline (mkTextPayload t None) w1 w p Hw1 Hp)
        as [r1 [r [Hr1 [Hr [Hsame Hafter]]]]].
      rewrite Hr1 in Hrs. cbn [app] in Hrs.
      destruct (batch_loop_acc ts [mkBatchEntry t r1]
                  (snd (detect (mkTextPayload t None) w1)))
        as [rs' [H2 [H3 _]]].
      rewrite H3 in Hrs. injection Hrs as <-.
      constructor.
      + exists r. cbn [be_text be_result]. rewrite Hr. now split.
      + exact (IH _ _ Hafter H2). }
  exact (Hgen texts w results Hp H0).
Qed.

End EndpointFacts.


Lemma classifier_flag_sound_witness :
  fst (classifier_verdict even_new_pipeline even_fit flag_predict
         flag_predict_proba None "hello") = true /\
  exists p label labels row rows,
    loaded_pipeline even_new_pipeline even_fit None = Some p /\
    flag_predict p "hello" = Some (label :: labels) /\ label <> 0%Z /\
    flag_predict_proba p "hello" = Some (row :: rows) /\
    In (snd (classifier_verdict even_new_pipeline even_fit flag_predict
               flag_predict_proba None "hello")) row /\
    (forall x, In x row ->
       (x <= snd (classifier_verdict even_new_pipeline even_fit flag_predict
                    flag_predict_proba None "hello"))%Q).
Proof.
  split; [reflexivity|].
  exact (classifier_flag_sound unit even_new_pipeline even_fit flag_predict
           flag_predict_proba None "hello" eq_refl).
Defined.

Lemma batch_detect_bias_independent_witness :
  bias_pipeline fitted_world = Some tt /\
  exists results,
    fst (batch_detect_bias even_new_pipeline even_fit even_predict
           even_predict_proba ["hello"; "This is a stupid idea"] fitted_world)
    = inr (results, 2%Z) /\
    Forall (fun entry =>
              exists r,
                fst (detect_realtime_bias even_new_pipeline even_fit
                       even_predict even_predict_proba
                       (mkTextPayload (be_text entry) None) fitted_world)
                = inr r /\
                same_verdict (be_result entry) r) results.
Proof.
  split; [reflexivity|].
  exact (batch_detect_bias_independent unit even_new_pipeline even_fit
           even_predict even_predict_proba ["hello"; "This is a stupid idea"]
           fitted_world tt eq_refl).
Defined.

(* ================================================================== *)
(** ** More about the sentiment scorer *)
(* ================================================================== *)

Section SentimentMore.

Variable Analyzer : Type.
Variable SentimentIntensityAnalyzer : option Analyzer.
Variable polarity_scores : Analyzer -> string -> option VaderScores.

Local Abbreviation analyze :=
  (analyze_sentiment Analyzer SentimentIntensityAnalyzer polarity_scores).
Local Abbreviation serving_analyzer :=
  (serving_vader_analyzer SentimentIntensityAnalyzer).

Local Open Scope Q_scope.

Lemma classify_compound_range (scores : VaderScores) :
  In (label (classify_compound scores)) ["POSITIVE"; "NEGATIVE"; "NEUTRAL"]%string /\
  0.05 <= score (classify_compound scores) /\
  (label (classify_compound scores) = "NEUTRAL"%string ->
   score (classify_compound scores) = 0.5) /\
  error (classify_compound scores) = false.
Proof.
  unfold classify_compound.
  destruct (Qle_bool 0.05 (compound scores)) eqn:Hpos.
  - apply Qle_bool_iff in Hpos. cbn [label score error].
    split; [now left|]. split; [exact Hpos|]. split; [discriminate | reflexivity].
  - destruct (Qle_bool (compound scores) (-0.05)) eqn:Hneg.
    + apply Qle_bool_iff in Hneg. cbn [label score error].
      split; [now right; left|]. split.
      * rewrite Qabs_neg by lra. lra.
      * split; [discriminate | reflexivity].
    + cbn [label score error]. split; [now right; right; left|].
      split; [discriminate|]. now split.
Qed.

Lemma analyze_sentiment_cases (payload : TextPayload)
    (vader_analyzer : option Analyzer) :
  analyze payload vader_analyzer =
  (inr match serving_analyzer vader_analyzer with
       | Some a =>
           match polarity_scores a (text payload) with
           | Some scores => classify_compound scores
           | None => mkSentimentResult "NEUTRAL" 0.5 None true
           end
       | None => mkSentimentResult "NEUTRAL" 0.5 None true
       end,
   serving_analyzer vader_analyzer).
Proof.
  unfold analyze_sentiment, _load_vader_analyzer, serving_vader_analyzer,
    try_except, bind, lift_option, ret, raise.
  destruct vader_analyzer as [a|]; cbn.
  - destruct (polarity_scores a (text payload)); reflexivity.
  - destruct SentimentIntensityAnalyzer as [a|]; cbn; [|reflexivity].
    destruct (polarity_scores a (text payload)); reflexivity.
Qed.

(** X20: the sentiment endpoint always answers: with one of the three labels,
    a score of at least 0.05, and the score 0.5 whenever the label is
    NEUTRAL. *)
Theorem analyze_sentiment_answer (payload : TextPayload)
    (vader_analyzer : option Analyzer) :
  exists r,
    fst (analyze payload vader_analyzer) = inr r /\
    In (label r) ["POSITIVE"; "NEGATIVE"; "NEUTRAL"]%string /\
    0.05 <= score r /\
    (label r = "NEUTRAL"%string -> score r = 0.5).
Proof.
  rewrite analyze_sentiment_cases. eexists. split; [reflexivity|].
  assert (Hfallback :
            In (label (mkSentimentResult "NEUTRAL" 0.5 None true))
               ["POSITIVE"; "NEGATIVE"; "NEUTRAL"]%string /\
            0.05 <= score (mkSentimentResult "NEUTRAL" 0.5 None true) /\
            (label (mkSentimentResult "NEUTRAL" 0.5 None true) = "NEUTRAL"%string ->
             score (mkSentimentResult "NEUTRAL" 0.5 None true) = 0.5)).
  { cbn [label score]. split; [now right; right; left|].
    split; [discriminate | reflexivity]. }
  destruct (serving_analyzer vader_analyzer) as [a|]; [|exact Hfallback].
  destruct (polarity_scores a (text payload)) as [scores|]; [|exact Hfallback].
  destruct (classify_compound_range scores) as [H1 [H2 [H3 _]]].
  now repeat split.
Qed.

(** X21: the error flag is raised exactly when no analyzer could be had or
    scoring failed; the analyzer is built only when the global is empty,
    and a failure to build it leaves the global empty for the next
    call. *)
Theorem analyze_sentiment_error (payload : TextPayload)
    (vader_analyzer : option Analyzer) :
  snd (analyze payload vader_analyzer) = serving_analyzer vader_analyzer /\
  exists r,
    fst (analyze payload vader_analyzer) = inr r /\
    (error r = false <->
     exists a scores,
       serving_analyzer vader_analyzer = Some a /\
       polarity_scores a (text payload) = Some scores /\
       vader_scores r = Some scores) /\
    (error r = true -> label r = "NEUTRAL"%string /\ score r = 0.5 /\
                       vader_scores r = None).
Proof.
  rewrite analyze_sentiment_cases. split; [reflexivity|].
  eexists. split; [reflexivity|].
  destruct (serving_analyzer vader_analyzer) as [a|].
  - destruct (polarity_scores a (text payload)) as [scores|] eqn:Hs.
    + destruct (classify_compound_range scores) as [_ [_ [_ He]]].
      split.
      * split; [|intros _; exact He]. intros _. exists a, scores.
        split; [reflexivity|]. split; [exact Hs|].
        unfold classify_compound.
        repeat match goal with
               | |- context [if ?b then _ else _] => destruct b
               end; reflexivity.
      * rewrite He. discriminate.
    + cbn [error label score vader_scores]. split; [|now repeat split].
      split; [discriminate|]. intros [a' [scores [Ha [Hp _]]]].
      injection Ha as <-. congruence.
  - cbn [error label score vader_scores]. split; [|now repeat split].
    split; [discriminate|]. intros [a' [scores [Ha _]]]. discriminate.
Qed.

End SentimentMore.

(* ================================================================== *)
(** ** The unified analysis *)
(* ================================================================== *)

Lemma bind_inr {W A B} (c : M W A) (k : A -> M W B) (w w' : W) (a : A) :
  c w = (inr a, w') -> bind c k w = k a w'.
Proof. intros H. unfold bind. now rewrite H. Qed.

Section UnifiedFacts.

Variable Pipeline : Type.
Variable new_pipeline : option Pipeline.
Variable fit : Pipeline -> Pipeline * bool.
Variable predict : Pipeline -> string -> option (list Z).
Variable predict_proba : Pipeline -> string -> option (list (list Q)).
Variable Analyzer : Type.
Variable SentimentIntensityAnalyzer : option Analyzer.
Variable polarity_scores : Analyzer -> string -> option VaderScores.
Variable isoformat : Q -> string.

Local Abbreviation verdict :=
  (classifier_verdict new_pipeline fit predict predict_proba).
Local Abbreviation after_call := (pipeline_after_call new_pipeline fit).
Local Abbreviation get_sentiment :=
  (_get_sentiment_analysis (Pipeline := Pipeline)
     SentimentIntensityAnalyzer polarity_scores).
Local Abbreviation get_bias :=
  (_get_bias_detection new_pipeline fit predict predict_proba).
Local Abbreviation track := (_track_flagged_detection isoformat).
Local Abbreviation analyze_public :=
  (unified_analysis_public new_pipeline fit predict predict_proba
     SentimentIntensityAnalyzer polarity_scores isoformat).
Local Abbreviation run :=
  (run_calls new_pipeline fit predict predict_proba
     SentimentIntensityAnalyzer polarity_scores isoformat).
Local Abbreviation sentiment_of :=
  (sentiment_value SentimentIntensityAnalyzer polarity_scores).

Local Open Scope Q_scope.

Lemma get_sentiment_eq (text : string) (uw : UWorld Pipeline) :
  get_sentiment text uw = (inr (sentiment_of text), uw).
Proof.
  unfold _get_sentiment_analysis, sentiment_value, try_except, bind,
    lift_option, ret, raise.
  destruct SentimentIntensityAnalyzer as [a|]; [|reflexivity].
  destruct (polarity_scores a text); reflexivity.
Qed.

Lemma get_bias_eq (text : string) (w : World Pipeline) :
  get_bias text w =
  (inr (bias_value (_fast_lexicon_filter text)
          (verdict (bias_pipeline w) text)),
   mkWorld (after_call (bias_pipeline w)) (clock w) (ticks w)
           ((calls w ++ [LexiconFilter text])
            ++ [SentenceClassifier text])%list).
Proof.
  unfold _get_bias_detection, call_fast_lexicon_filter.
  unfold try_except. unfold bind at 1. unfold bind at 1.
  unfold log_call at 1. cbn [ret]. unfold bind at 1.
  rewrite classification_frame. reflexivity.
Qed.

Lemma bias_value_score (text : string) (ml : bool * Q) :
  bd_bias_score (bias_value (_fast_lexicon_filter text) ml)
  == lexicon_component (_fast_lexicon_filter text) /\
  0 <= bd_bias_score (bias_value (_fast_lexicon_filter text) ml) <= 1.
Proof.
  unfold bias_value. cbn [bd_bias_score].
  assert (E : (if nonempty (_fast_lexicon_filter text)
               then Qmin (total_weight (_fast_lexicon_filter text)
                          / list_len (_fast_lexicon_filter text)) 1.0
               else 0.0)
              == lexicon_component (_fast_lexicon_filter text)).
  { unfold lexicon_component.
    destruct (_fast_lexicon_filter text) as [|d l]; cbn [nonempty];
      [reflexivity|].
    rewrite Q.min_comm. apply Q.min_compat; [reflexivity|].
    now rewrite total_weight_weighted_sum. }
  split; [exact E|].
  rewrite E. apply lexicon_component_range, lexicon_filter_in_range.
Qed.

(** X22: [_get_bias_detection] always answers.  It has the flag and the
    confidence of the real-time endpoint's result, but its score is the
    lexicon component alone: in [0, 1], 0.0 when the lexicon finds
    nothing, and the same whatever the classifier says. *)
Theorem get_bias_detection_score (text : string) (w : World Pipeline) :
  exists b,
    fst (get_bias text w) = inr b /\
    bd_categories b = _fast_lexicon_filter text /\
    bd_is_biased b
    = is_biased (fused_result text (verdict (bias_pipeline w) text) 0) /\
    bd_confidence b
    = confidence (fused_result text (verdict (bias_pipeline w) text) 0) /\
    bd_bias_score b == lexicon_component (_fast_lexicon_filter text) /\
    0 <= bd_bias_score b <= 1 /\
    (_fast_lexicon_filter text = [] -> bd_bias_score b = 0.0).
Proof.
  rewrite get_bias_eq. eexists. split; [reflexivity|]. cbn [fst].
  destruct (bias_value_score text (verdict (bias_pipeline w) text))
    as [E Hrange].
  split; [reflexivity|]. split; [reflexivity|]. split; [reflexivity|].
  split; [exact E|]. split; [exact Hrange|].
  intros Hnil. unfold bias_value. rewrite Hnil. reflexivity.
Qed.

Lemma Qlt_bool_iff (a b : Q) : Qlt_bool a b = true <-> a < b.
Proof.
  unfold Qlt_bool. rewrite negb_true_iff. split.
  - intros H. apply Qnot_le_lt. intros Hle. apply Qle_bool_iff in Hle.
    congruence.
  - intros H. destruct (Qle_bool b a) eqn:E; [|reflexivity].
    apply Qle_bool_iff in E. exfalso. now apply (Qlt_not_le a b).
Qed.

Lemma track_categories_spec (categories : list Detection)
    (session_id : option string) :
  forall (acc : list PyDict) (uw : UWorld Pipeline),
  exists items w',
    track_categories isoformat categories session_id acc uw
    = (inr (acc ++ items)%list, mkUWorld w' (flagged_detections uw)) /\
    List.length items = List.length categories /\
    Forall lacks_user_id items.
Proof.
  induction categories as [|category rest IH]; intros acc uw.
  - exists [], (uw_world uw). cbn. rewrite app_nil_r.
    destruct uw. now repeat split.
  - cbn [track_categories]. unfold bind at 1.
    unfold datetime_now, lift_world, time_time. cbn [fst snd].
    match goal with
    | |- context [track_categories _ rest _ ?acc' ?uw'] =>
        destruct (IH acc' uw') as [items [w' [H [Hlen Hall]]]]
    end.
    rewrite H. cbn [flagged_detections].
    exists (bias_detection_item isoformat category
              (clock (uw_world uw) (ticks (uw_world uw))) session_id :: items),
      w'.
    split; [now rewrite <- app_assoc|]. split; [cbn; now rewrite Hlen|].
    constructor; [reflexivity | exact Hall].
Qed.

Lemma track_spec (text : string) (sentiment : SentimentAnalysis)
    (bias : BiasDetection) (session_id : option string)
    (uw : UWorld Pipeline) :
  exists items w',
    track text sentiment bias session_id uw
    = (inr items, mkUWorld w' (flagged_detections uw ++ items)%list) /\
    List.length items
    = ((if negative_flag sentiment then 1 else 0)
       + (if bd_is_biased bias then List.length (bd_categories bias) else 0))%nat /\
    Forall lacks_user_id items.
Proof.
  unfold _track_flagged_detection. fold (negative_flag sentiment).
  set (first :=
         if negative_flag sentiment
         then [negative_sentiment_item isoformat sentiment
                 (clock (uw_world uw) (ticks (uw_world uw))) session_id]
         else []).
  assert (Hfirst : exists w1,
            (if negative_flag sentiment
             then bind (datetime_now (Pipeline := Pipeline))
                    (fun now =>
                       ret [negative_sentiment_item isoformat sentiment now
                              session_id])
             else ret []) uw
            = (inr first, mkUWorld w1 (flagged_detections uw))).
  { subst first. destruct (negative_flag sentiment).
    - eexists. unfold bind, datetime_now, lift_world, time_time, ret.
      cbn [fst snd]. reflexivity.
    - exists (uw_world uw). unfold ret. now destruct uw. }
  destruct Hfirst as [w1 Hfirst].
  rewrite (bind_inr _ _ _ _ _ Hfirst).
  assert (Hfl : Forall lacks_user_id first /\
                List.length first = if negative_flag sentiment then 1%nat else 0%nat).
  { subst first. destruct (negative_flag sentiment); split;
      try reflexivity; repeat constructor. }
  destruct Hfl as [Hfl Hflen].
  destruct (bd_is_biased bias).
  - destruct (track_categories_spec (bd_categories bias) session_id first
                (mkUWorld w1 (flagged_detections uw)))
      as [items [w' [H [Hlen Hall]]]].
    rewrite (bind_inr _ _ _ _ _ H).
    unfold bind, extend_flagged_detections, ret.
    cbn [fst snd uw_world flagged_detections].
    exists (first ++ items)%list, w'. split; [reflexivity|].
    split; [rewrite length_app; lia|]. apply Forall_app. now split.
  - unfold bind at 1. unfold ret at 1.
    unfold bind, extend_flagged_detections, ret.
    cbn [fst snd uw_world flagged_detections].
    exists first, w1. split; [reflexivity|]. split; [lia | exact Hfl].
Qed.

Lemma analyze_public_blank (request : UnifiedAnalysisRequest)
    (uw : UWorld Pipeline) :
  strip (req_text request) = "" ->
  analyze_public request uw
  = (inl (HTTPException 500),
     mkUWorld (snd (time_time (uw_world uw))) (flagged_detections uw)).
Proof.
  intros H. unfold unified_analysis_public, bind, try_except, lift_world,
    time_time, raise. cbn [fst snd]. rewrite H. reflexivity.
Qed.

Lemma analyze_public_text (request : UnifiedAnalysisRequest)
    (uw : UWorld Pipeline) :
  strip (req_text request) <> "" ->
  let text := strip (req_text request) in
  exists resp w',
    analyze_public request uw
    = (inr resp,
       mkUWorld w' (flagged_detections uw ++ flagged_items resp)%list) /\
    sentiment resp = sentiment_of text /\
    bias_detection resp
    = bias_value (_fast_lexicon_filter text)
        (verdict (bias_pipeline (uw_world uw)) text) /\
    insights resp = _generate_insights (sentiment resp) (bias_detection resp) /\
    recommendations resp
    = _generate_recommendations (sentiment resp) (bias_detection resp) /\
    overall_score resp
    = unified_overall_score (sentiment resp) (bias_detection resp) /\
    has_issues resp
    = Qlt_bool 0.3 (overall_score resp) || nonempty (flagged_items resp) /\
    List.length (flagged_items resp)
    = ((if negative_flag (sentiment resp) then 1 else 0)
       + List.length (_fast_lexicon_filter text))%nat /\
    Forall lacks_user_id (flagged_items resp).
Proof.
  intros H text. subst text. apply String.eqb_neq in H.
  unfold unified_analysis_public, datetime_now. unfold bind at 1.
  unfold lift_world at 1. unfold time_time. cbn [fst snd].
  unfold try_except. cbv zeta. rewrite H.
  set (text := strip (req_text request)).
  rewrite (bind_inr _ _ _ _ _ (get_sentiment_eq text _)).
  unfold bind at 1. unfold lift_world at 1. rewrite get_bias_eq.
  cbn [fst snd uw_world flagged_detections bias_pipeline clock ticks calls].
  set (sv := sentiment_of text).
  set (bv := bias_value (_fast_lexicon_filter text)
               (verdict (bias_pipeline (uw_world uw)) text)).
  match goal with
  | |- context [bind (_track_flagged_detection _ _ _ _ _) _ ?uw1] =>
      destruct (track_spec text sv bv None uw1) as [items [w1 [Ht [Hlen Hall]]]]
  end.
  rewrite (bind_inr _ _ _ _ _ Ht).
  unfold datetime_now. unfold bind, lift_world, time_time, ret.
  cbn [fst snd uw_world flagged_detections bias_pipeline clock ticks calls].
  eexists (mkUnifiedAnalysisResponse _ _ _ _ _ _ _ _ _). eexists.
  split; [reflexivity|].
  cbn [sentiment bias_detection insights recommendations overall_score
       has_issues flagged_items].
  repeat (split; [reflexivity|]). split; [|exact Hall].
  rewrite Hlen. subst bv. unfold bias_value.
  cbn [bd_is_biased bd_categories]. f_equal.
  destruct (_fast_lexicon_filter text) as [|d l]; cbn [nonempty orb];
    [now destruct (fst _) | reflexivity].
Qed.

(** X25: a request whose text is empty once stripped is answered with status
    500, not 400: the HTTPException 400 raised inside the [try] block is
    caught by its own [except Exception] and raised again as 500.
    Nothing is recorded. *)
Theorem unified_blank_is_500 (request : UnifiedAnalysisRequest)
    (uw : UWorld Pipeline) :
  strip (req_text request) = "" ->
  fst (analyze_public request uw) = inl (HTTPException 500) /\
  flagged_detections (snd (analyze_public request uw)) = flagged_detections uw.
Proof.
  intros H. rewrite (analyze_public_blank request uw H).
  split; reflexivity.
Qed.

(** X26: on any other text the endpoint answers, and it reports issues
    exactly when the sentiment is NEGATIVE with confidence above 0.5 or
    the lexicon filter found something, which is also exactly when it
    flags an item: the threshold on the overall score and the flag of
    the classifier never decide. *)
Theorem unified_has_issues (request : UnifiedAnalysisRequest)
    (uw : UWorld Pipeline) :
  strip (req_text request) <> "" ->
  exists resp,
    fst (analyze_public request uw) = inr resp /\
    (has_issues resp = true <->
     negative_flag (sentiment resp) = true
     \/ _fast_lexicon_filter (strip (req_text request)) <> []) /\
    (has_issues resp = true <-> flagged_items resp <> []).
Proof.
  intros H.
  destruct (analyze_public_text request uw H)
    as [resp [w' [Hrun [Hs [Hb [_ [_ [Hscore [Hissues [Hlen _]]]]]]]]]].
  exists resp. rewrite Hrun. split; [reflexivity|].
  set (dets := _fast_lexicon_filter (strip (req_text request))) in *.
  assert (Hitems : flagged_items resp <> [] <->
                   negative_flag (sentiment resp) = true \/ dets <> []).
  { split.
    - intros Hne. destruct (negative_flag (sentiment resp)); [now left|].
      right. intros Hd. rewrite Hd in Hlen. cbn in Hlen.
      destruct (flagged_items resp); [contradiction | discriminate].
    - intros [Hn | Hd] Hnil; rewrite Hnil in Hlen; cbn [List.length] in Hlen.
      + rewrite Hn in Hlen. lia.
      + destruct dets; [contradiction|]. cbn [List.length] in Hlen. lia. }
  assert (Hscore' : Qlt_bool 0.3 (overall_score resp) = true ->
                    negative_flag (sentiment resp) = true \/ dets <> []).
  { intros Hlt. destruct dets as [|d l] eqn:Hd; [|right; discriminate].
    left. apply Qlt_bool_iff in Hlt. rewrite Hscore, Hb in Hlt.
    unfold unified_overall_score, bias_value in Hlt.
    cbn [bd_is_biased bd_bias_score nonempty orb] in Hlt.
    unfold negative_flag.
    destruct (String.eqb (sa_label (sentiment resp)) "NEGATIVE").
    - apply andb_true_iff. split; [reflexivity|]. apply Qlt_bool_iff.
      destruct (fst (verdict (bias_pipeline (uw_world uw))
                       (strip (req_text request)))); lra.
    - destruct (fst (verdict (bias_pipeline (uw_world uw))
                       (strip (req_text request)))); lra. }
  assert (Hmain : has_issues resp = true <-> flagged_items resp <> []).
  { rewrite Hissues, orb_true_iff, nonempty_true. split.
    - intros [Hlt | Hne]; [|exact Hne]. apply Hitems. now apply Hscore'.
    - intros Hne. now right. }
  split; [|exact Hmain]. rewrite Hmain. exact Hitems.
Qed.

(** X27: every analysis appends the items it flags to the global list, after
    those already there: one for a NEGATIVE sentiment with confidence
    above 0.5 and one per lexicon detection. *)
Theorem unified_tracking (request : UnifiedAnalysisRequest)
    (uw : UWorld Pipeline) :
  strip (req_text request) <> "" ->
  exists resp,
    fst (analyze_public request uw) = inr resp /\
    flagged_detections (snd (analyze_public request uw))
    = (flagged_detections uw ++ flagged_items resp)%list /\
    List.length (flagged_items resp)
    = ((if negative_flag (sentiment resp) then 1 else 0)
       + List.length (_fast_lexicon_filter (strip (req_text request))))%nat.
Proof.
  intros H.
  destruct (analyze_public_text request uw H)
    as [resp [w' [Hrun [_ [_ [_ [_ [_ [_ [Hlen _]]]]]]]]]].
  exists resp. rewrite Hrun. now repeat split.
Qed.

(** X28: with compound scores in [-1, 1], the overall score is in [0, 1]. *)
Theorem unified_overall_score_range (request : UnifiedAnalysisRequest)
    (uw : UWorld Pipeline) :
  (forall a t scores, polarity_scores a t = Some scores ->
                      -1 <= compound scores <= 1) ->
  strip (req_text request) <> "" ->
  exists resp,
    fst (analyze_public request uw) = inr resp /\
    0 <= overall_score resp <= 1.
Proof.
  intros Hrange H.
  destruct (analyze_public_text request uw H)
    as [resp [w' [Hrun [Hs [Hb [_ [_ [Hscore _]]]]]]]].
  exists resp. rewrite Hrun. split; [reflexivity|].
  destruct (bias_value_score (strip (req_text request))
              (verdict (bias_pipeline (uw_world uw))
                 (strip (req_text request)))) as [_ Hbr].
  rewrite <- Hb in Hbr.
  assert (Hc : 0 <= sa_confidence (sentiment resp) <= 1).
  { rewrite Hs. unfold sentiment_value.
    destruct SentimentIntensityAnalyzer as [a|]; [|cbn; lra].
    destruct (polarity_scores a (strip (req_text request))) as [scores|] eqn:E;
      [|cbn; lra].
    cbn [sa_confidence]. split; [apply Qabs_nonneg|].
    apply Qabs_Qle_condition. exact (Hrange _ _ _ E). }
  rewrite Hscore. unfold unified_overall_score.
  destruct (String.eqb (sa_label (sentiment resp)) "NEGATIVE");
    destruct (bd_is_biased (bias_detection resp)); lra.
Qed.

(** X29: the report endpoint finds nothing, whatever was analysed before: the
    flagged items carry no ["user_id"], so none of them belongs to the
    user asking. *)
Theorem flagged_report_always_empty (calls : list UnifiedCall)
    (uw : UWorld Pipeline) (current_user_id : Z) :
  flagged_detections uw = [] ->
  fst (get_flagged_detections current_user_id (run calls uw))
  = inr (mkFlaggedReport 0 [] 0 0).
Proof.
  intros Hinit.
  assert (Hinv : forall cs uw0,
            Forall lacks_user_id (flagged_detections uw0) ->
            Forall lacks_user_id (flagged_detections (run cs uw0))).
  { induction cs as [|c cs IH]; intros uw0 H0; [exact H0|].
    unfold run_calls. cbn [fold_left]. apply IH.
    destruct c as [request|]; cbn [run_call].
    - destruct (string_dec (strip (req_text request)) "") as [Hb|Hb].
      + rewrite (analyze_public_blank request uw0 Hb). exact H0.
      + destruct (analyze_public_text request uw0 Hb)
          as [resp [w' [Hrun [_ [_ [_ [_ [_ [_ [_ Hall]]]]]]]]]].
        rewrite Hrun. cbn [snd flagged_detections]. apply Forall_app.
        now split.
    - constructor. }
  specialize (Hinv calls uw). rewrite Hinit in Hinv.
  specialize (Hinv (Forall_nil _)).
  unfold get_flagged_detections.
  rewrite (filter_none _ (flagged_detections (run calls uw))).
  - reflexivity.
  - rewrite Forall_forall in Hinv. intros item Hin.
    unfold lacks_user_id in Hinv. now rewrite (Hinv item Hin).
Qed.

(** X23: [_get_sentiment_analysis] always answers and leaves the state alone.
    On success the confidence is |compound| and the label is NEUTRAL
    exactly when the confidence is below 0.05; on failure the label is
    NEUTRAL with confidence 0.0 and status "error". *)
Theorem get_sentiment_analysis_answer (text : string) (uw : UWorld Pipeline) :
  exists s,
    get_sentiment text uw = (inr s, uw) /\
    In (sa_label s) ["POSITIVE"; "NEGATIVE"; "NEUTRAL"]%string /\
    0 <= sa_confidence s /\
    (sa_error s = false ->
     sa_confidence s = Qabs (compound (sa_scores s)) /\
     (sa_label s = "NEUTRAL"%string <-> sa_confidence s < 0.05)) /\
    (sa_error s = true ->
     sa_label s = "NEUTRAL"%string /\ sa_confidence s = 0.0 /\
     sa_status s = "error"%string).
Proof.
  rewrite get_sentiment_eq. eexists. split; [reflexivity|].
  unfold sentiment_value.
  assert (Hfb : In (sa_label sentiment_fallback)
                   ["POSITIVE"; "NEGATIVE"; "NEUTRAL"]%string /\
                0 <= sa_confidence sentiment_fallback /\
                (sa_error sentiment_fallback = false ->
                 sa_confidence sentiment_fallback
                 = Qabs (compound (sa_scores sentiment_fallback)) /\
                 (sa_label sentiment_fallback = "NEUTRAL"%string <->
                  sa_confidence sentiment_fallback < 0.05)) /\
                (sa_error sentiment_fallback = true ->
                 sa_label sentiment_fallback = "NEUTRAL"%string /\
                 sa_confidence sentiment_fallback = 0.0 /\
                 sa_status sentiment_fallback = "error"%string)).
  { cbn. split; [now right; right; left|]. split; [discriminate|].
    split; [discriminate | now repeat split]. }
  destruct SentimentIntensityAnalyzer as [a|]; [|exact Hfb].
  destruct (polarity_scores a text) as [scores|]; [|exact Hfb].
  cbn [sa_label sa_confidence sa_scores sa_error sa_status].
  split; [|split; [apply Qabs_nonneg|split; [|discriminate]]].
  - destruct (Qle_bool 0.05 (compound scores)); [now left|].
    destruct (Qle_bool (compound scores) (-0.05));
      [now right; left | now right; right; left].
  - intros _. split; [reflexivity|].
    destruct (Qle_bool 0.05 (compound scores)) eqn:Hp.
    + apply Qle_bool_iff in Hp. split; [discriminate|].
      intros Hlt. rewrite Qabs_pos in Hlt by lra. lra.
    + assert (Hlt : compound scores < 0.05).
      { apply Qnot_le_lt. intros Hle. apply Qle_bool_iff in Hle. congruence. }
      destruct (Qle_bool (compound scores) (-0.05)) eqn:Hn.
      * apply Qle_bool_iff in Hn. split; [discriminate|].
        intros Habs. rewrite Qabs_neg in Habs by lra. lra.
      * assert (Hgt : -0.05 < compound scores).
        { apply Qnot_le_lt. intros Hle. apply Qle_bool_iff in Hle. congruence. }
        split; [intros _ | reflexivity].
        apply Qabs_Qlt_condition. split; lra.
Qed.

End UnifiedFacts.

Lemma category_recommendations_in (categories : list Detection) :
  forall (acc : list string) (x : string),
  In x (category_recommendations categories acc) ->
  In x acc \/ x = gender_advice
  \/ x = "Focus on skills and experience rather than age"%string.
Proof.
  induction categories as [|c cs IH]; intros acc x H; [now left|].
  cbn [category_recommendations] in H. apply IH in H.
  destruct H as [H | H]; [|now right].
  destruct (String.eqb (det_category c) "gender_bias");
    [|destruct (String.eqb (det_category c) "age_bias")];
    try (now left); apply in_app_or in H;
    destruct H as [H | [<- | []]]; auto.
Qed.

Lemma category_recommendations_keeps (categories : list Detection) :
  forall (acc : list string) (x : string),
  In x acc -> In x (category_recommendations categories acc).
Proof.
  induction categories as [|c cs IH]; intros acc x H; [exact H|].
  cbn [category_recommendations]. apply IH.
  destruct (String.eqb (det_category c) "gender_bias");
    [|destruct (String.eqb (det_category c) "age_bias")];
    try exact H; apply in_or_app; now left.
Qed.

Lemma category_recommendations_count (categories : list Detection) :
  forall acc : list string,
  count_occ string_dec (category_recommendations categories acc) gender_advice
  = (count_occ string_dec acc gender_advice
     + count_category "gender_bias" categories)%nat.
Proof.
  unfold count_category.
  induction categories as [|c cs IH]; intros acc; [simpl; lia|].
  cbn [category_recommendations List.filter]. rewrite IH.
  destruct (String.eqb (det_category c) "gender_bias") eqn:Eg.
  - rewrite count_occ_app. cbn. lia.
  - destruct (String.eqb (det_category c) "age_bias");
      [rewrite count_occ_app; cbn; lia | lia].
Qed.

(** X24: the recommendations say "good to go" exactly when the text is not
    flagged and the sentiment is POSITIVE, ask for a review exactly when
    the text is flagged, and repeat the advice on gender once for every
    gender_bias detection of a flagged text. *)
Theorem generate_recommendations_contents (sentiment : SentimentAnalysis)
    (bias : BiasDetection) :
  let recs := _generate_recommendations sentiment bias in
  (In good_to_go recs <->
   bd_is_biased bias = false /\ sa_label sentiment = "POSITIVE"%string) /\
  (In review_text recs <-> bd_is_biased bias = true) /\
  count_occ string_dec recs gender_advice
  = if bd_is_biased bias
    then count_category "gender_bias" (bd_categories bias)
    else 0%nat.
Proof.
  cbv zeta. unfold _generate_recommendations.
  set (first :=
         if String.eqb (sa_label sentiment) "NEGATIVE"
            && Qlt_bool 0.5 (sa_confidence sentiment)
         then ([] ++ ["Consider using more neutral or positive language"%string])%list
         else []).
  assert (Hfirst : forall x, In x first ->
            x = "Consider using more neutral or positive language"%string).
  { subst first. intros x.
    destruct (String.eqb (sa_label sentiment) "NEGATIVE"
              && Qlt_bool 0.5 (sa_confidence sentiment));
      [intros [<- | []]; reflexivity | intros []]. }
  assert (Hcount : count_occ string_dec first gender_advice = 0%nat).
  { subst first.
    destruct (String.eqb (sa_label sentiment) "NEGATIVE"
              && Qlt_bool 0.5 (sa_confidence sentiment)); reflexivity. }
  destruct (bd_is_biased bias) eqn:Hb; cbn [negb andb].
  - assert (Hrev : In review_text
                     (if nonempty (bd_categories bias)
                      then category_recommendations (bd_categories bias)
                             (first ++ [review_text])
                      else (first ++ [review_text])%list)).
    { destruct (nonempty (bd_categories bias));
        [apply category_recommendations_keeps|]; apply in_or_app;
        right; now left. }
    fold review_text. split; [|split].
    + split; [|intros [? _]; discriminate]. intros Hin. exfalso.
      destruct (nonempty (bd_categories bias)).
      * apply category_recommendations_in in Hin.
        destruct Hin as [Hin | [Hin | Hin]]; try discriminate.
        apply in_app_or in Hin. destruct Hin as [Hin | [Hin | []]];
          [apply Hfirst in Hin|]; discriminate.
      * apply in_app_or in Hin. destruct Hin as [Hin | [Hin | []]];
          [apply Hfirst in Hin|]; discriminate.
    + split; [reflexivity | intros _; exact Hrev].
    + destruct (bd_categories bias) as [|c cs] eqn:Hc; cbn [nonempty].
      * rewrite count_occ_app, Hcount. reflexivity.
      * rewrite category_recommendations_count, count_occ_app, Hcount.
        reflexivity.
  - fold good_to_go. split; [|split].
    + destruct (String.eqb_spec (sa_label sentiment) "POSITIVE") as [E|E].
      * split; [intros _; now split|]. intros _. apply in_or_app.
        right. now left.
      * split; [|intros [_ ?]; contradiction]. intros Hin.
        apply Hfirst in Hin. discriminate.
    + split; [|discriminate]. intros Hin. exfalso.
      destruct (String.eqb (sa_label sentiment) "POSITIVE").
      * apply in_app_or in Hin. destruct Hin as [Hin | [Hin | []]];
          [apply Hfirst in Hin|]; discriminate.
      * apply Hfirst in Hin. discriminate.
    + destruct (String.eqb (sa_label sentiment) "POSITIVE");
        [rewrite count_occ_app, Hcount|]; [reflexivity | exact Hcount].
Qed.

Lemma unified_blank_is_500_witness :
  strip (req_text blank_request) = ""%string /\
  fst (analyze_public_negative blank_request fresh_uworld)
  = inl (HTTPException 500) /\
  flagged_detections (snd (analyze_public_negative blank_request fresh_uworld))
  = flagged_detections fresh_uworld.
Proof.
  split; [reflexivity|].
  exact (unified_blank_is_500 unit even_new_pipeline even_fit even_predict
           even_predict_proba unit fixed_analyzer negative_polarity_scores
           plain_isoformat blank_request fresh_uworld eq_refl).
Defined.

Lemma stupid_request_not_blank : strip (req_text stupid_request) <> ""%string.
Proof. discriminate. Defined.

Lemma unified_has_issues_witness :
  strip (req_text stupid_request) <> ""%string /\
  exists resp,
    fst (analyze_public_negative stupid_request fresh_uworld) = inr resp /\
    (has_issues resp = true <->
     negative_flag (sentiment resp) = true
     \/ _fast_lexicon_filter (strip (req_text stupid_request)) <> []) /\
    (has_issues resp = true <-> flagged_items resp <> []).
Proof.
  split; [exact stupid_request_not_blank|].
  exact (unified_has_issues unit even_new_pipeline even_fit even_predict
           even_predict_proba unit fixed_analyzer negative_polarity_scores
           plain_isoformat stupid_request fresh_uworld
           stupid_request_not_blank).
Defined.

Lemma unified_tracking_witness :
  strip (req_text stupid_request) <> ""%string /\
  exists resp,
    fst (analyze_public_negative stupid_request fresh_uworld) = inr resp /\
    flagged_detections (snd (analyze_public_negative stupid_request fresh_uworld))
    = (flagged_detections fresh_uworld ++ flagged_items resp)%list /\
    List.length (flagged_items resp)
    = ((if negative_flag (sentiment resp) then 1 else 0)
       + List.length (_fast_lexicon_filter (strip (req_text stupid_request))))%nat.
Proof.
  split; [exact stupid_request_not_blank|].
  exact (unified_tracking unit even_new_pipeline even_fit even_predict
           even_predict_proba unit fixed_analyzer negative_polarity_scores
           plain_isoformat stupid_request fresh_uworld
           stupid_request_not_blank).
Defined.

Lemma negative_polarity_scores_range :
  forall (a : unit) (t : string) (scores : VaderScores),
    negative_polarity_scores a t = Some scores ->
    (-1 <= compound scores <= 1)%Q.
Proof.
  intros a t scores H. injection H as <-. cbn [compound].
  split; discriminate.
Defined.

Lemma unified_overall_score_range_witness :
  strip (req_text stupid_request) <> ""%string /\
  exists resp,
    fst (analyze_public_negative stupid_request fresh_uworld) = inr resp /\
    (0 <= overall_score resp <= 1)%Q.
Proof.
  split; [exact stupid_request_not_blank|].
  exact (unified_overall_score_range unit even_new_pipeline even_fit
           even_predict even_predict_proba unit fixed_analyzer
           negative_polarity_scores plain_isoformat stupid_request
           fresh_uworld negative_polarity_scores_range
           stupid_request_not_blank).
Defined.

Lemma flagged_report_always_empty_witness :
  flagged_detections fresh_uworld = [] /\
  fst (get_flagged_detections 7
         (run_calls even_new_pipeline even_fit even_predict even_predict_proba
            fixed_analyzer negative_polarity_scores plain_isoformat
            example_calls fresh_uworld))
  = inr (mkFlaggedReport 0 [] 0 0).
Proof.
  split; [reflexivity|].
  exact (flagged_report_always_empty unit even_new_pipeline even_fit
           even_predict even_predict_proba unit fixed_analyzer
           negative_polarity_scores plain_isoformat example_calls
           fresh_uworld 7 eq_refl).
Defined.

Lemma lexicon_filter_single_word_witness :
  In ("pejorative"%string, pejorative_config) BIAS_CATEGORIES /\
  In "stupid"%string (cfg_keywords pejorative_config) /\
  no_space "stupid" = true /\
  pair_count "pejorative" "stupid" (_fast_lexicon_filter "a Stupid idea")
  = if str_in "stupid" (lower "a Stupid idea") then 1%nat else 0%nat.
Proof.
  assert (H1 : In ("pejorative"%string, pejorative_config) BIAS_CATEGORIES)
    by (do 2 right; left; reflexivity).
  assert (H2 : In "stupid"%string (cfg_keywords pejorative_config))
    by (left; reflexivity).
  split; [exact H1|]. split; [exact H2|]. split; [reflexivity|].
  exact (lexicon_filter_single_word "a Stupid idea" "pejorative" "stupid"
           pejorative_config H1 H2 eq_refl).
Defined.
